(** * APIC reconciliation core of neutron: synchronizer engine, base and
    router resync, event-driven mechanism driver and L3 service plugin.

    The development embeds
      - neutron/plugins/ml2/drivers/cisco/apic/apic_sync.py
      - neutron/plugins/ml2/drivers/cisco/apic/mechanism_apic.py
      - neutron/services/l3_router/l3_apic.py
    as functions of a small state-and-exception monad.  The state is the
    chronological trace of everything the code does to its collaborators
    (fabric calls, transaction brackets, persistence calls, log records)
    together with the [synchronizer] attribute of the two plugin
    instances.  Collaborators that can fail are oracles over that trace. *)

From Stdlib Require Import ZArith String Ascii List Bool Lia.
From stdpp Require Import base option gmap strings.
Import ListNotations.

Local Open Scope string_scope.
Local Open Scope list_scope.
Local Open Scope Z_scope.

(* ===================================================================== *)
(** ** Logical entities (the dicts handed over by the core plugin)       *)
(* ===================================================================== *)

Record Network := {
  net_id : string;
  net_tenant_id : string;
  net_name : string;
  router_external : bool          (* network.get('router:external') *)
}.

Record Subnet := {
  subnet_id : string;
  subnet_network_id : string;
  subnet_tenant_id : string;
  cidr : string;
  gateway_ip : string
}.

(** A bound segment: [network_type] and [segmentation_id] of the ml2
    driver api; [.get(api.SEGMENTATION_ID)] is [None] when the key is
    missing. *)
Record Segment := {
  network_type : string;
  segmentation_id : option Z
}.

Record Port := {
  port_id : string;
  port_network_id : string;
  port_tenant_id : string;
  device_owner : string;
  device_id : string;
  host_id : option string         (* port.get(portbindings.HOST_ID) *)
}.

(** Static external connectivity of one network name: an entry of the
    external-network table, with the keys the driver reads by subscript
    and the optional 'encap'. *)
Record ExtNetInfo := {
  cidr_exposed : string;
  ext_gateway_ip : string;
  encap : option string;          (* router_info.get('encap') *)
  switch : string;
  ext_port : string               (* 'module/sub-port' *)
}.

(** The ml2 driver contexts. *)
Record NetworkContext := { nc_current : Network }.
Record SubnetContext := { sc_current : Subnet }.
Record PortContext := {
  pc_current : Port;
  pc_network : NetworkContext;
  bound_segment : option Segment
}.

(** [interface_info] of the router interface API: a dict that carries a
    'subnet_id' key, a 'port_id' key, both or none. *)
Record InterfaceInfo := {
  info_subnet_id : option string;
  info_port_id : option string
}.

(** Modelled from the spec: neutron.common.constants and
    neutron.plugins.common.constants are not among the sources; the device
    owners are the ones of the spec's data model (section 3) and the VLAN
    network type is its lower-case name. *)
Definition DEVICE_OWNER_ROUTER_GW : string := "network:router_gateway".
Definition DEVICE_OWNER_DHCP : string := "network:dhcp".
Definition DEVICE_OWNER_ROUTER_INTF : string := "network:router_interface".
Definition TYPE_VLAN : string := "vlan".

(* ===================================================================== *)
(** ** Exceptions, collaborator calls and the trace                      *)
(* ===================================================================== *)

(** Instances of Python's [Exception]: what the persistence layer raises
    for a missing row, what the interpreter raises for a failed dict lookup
    or tuple unpacking, and whatever a collaborator raises ([ApicError]). *)
Inductive exn : Type :=
| NetworkNotFound (id : string)
| SubnetNotFound (id : string)
| PortNotFound (id : string)
| KeyError (key : string)
| ValueError
| ApicError (code : Z).

(** The methods of the fabric manager ([self.apic_manager] /
    [self.manager]) that the embedded code invokes, with their positional
    arguments. *)
Module apic_manager.
Inductive call : Type :=
| ensure_bd_created_on_apic (tenant network : string)
| ensure_epg_created_for_network (tenant network : string)
| delete_epg_for_network (tenant network : string)
| delete_bd_on_apic (tenant network : string)
| ensure_subnet_created_on_apic (tenant network gateway : string)
| ensure_subnet_deleted_on_apic (tenant network gateway : string)
| ensure_path_created_for_port
    (tenant network : string) (host : option string) (seg : option Z)
| get_router_contract (router : string)
| ensure_context_enforced
| ensure_external_routed_network_created (network : string)
| ensure_logical_node_profile_created
    (network switch module sport : string) (encap : option string)
    (address : string)
| ensure_static_route_created (network switch next_hop : string)
| ensure_external_epg_created (network : string)
| ensure_external_epg_consumed_contract (network cid : string)
| ensure_external_epg_provided_contract (network cid : string)
| delete_external_epg_contract (router network : string)
| delete_external_routed_network (network : string)
| add_router_interface (tenant router network : string)
| remove_router_interface (tenant router network : string)
| delete_router (router : string).
End apic_manager.

(** The methods of the database mixins that [ApicL3ServicePlugin] reaches
    through [super]; [args] stands for an opaque [*args, **kwargs]. *)
Module l3_db.
Inductive call : Type :=
| create_router (args : string)
| update_router (args : string)
| get_router (args : string)
| get_routers (args : string)
| get_routers_count (args : string)
| delete_router (router_id : string)
| add_router_interface (router_id : string) (info : InterfaceInfo)
| remove_router_interface (router_id : string) (info : InterfaceInfo).
End l3_db.

(** What a driver is asked to replay during a resync. *)
Inductive replay : Type :=
| replay_network (ctx : NetworkContext)
| replay_subnet (ctx : SubnetContext)
| replay_port (ctx : PortContext)
| replay_router_interface (router_id : string) (info : InterfaceInfo).

Inductive log_record : Type :=
| port_not_bound (port : Port)
| network_postcommit_failed (id : string)
| subnet_postcommit_failed (id : string)
| port_postcommit_failed (id : string)
| interface_postcommit_failed (router_id port_id : string).

Inductive Event : Type :=
| TxEnter                                    (* with apic.transaction() as trs: *)
| TxExit                                     (* leaving that block *)
| Apic (c : apic_manager.call) (trs : bool)  (* trs: transaction=trs was passed *)
| L3Db (c : l3_db.call)
| Debug (r : log_record)                     (* LOG.debug *)
| Warn (r : log_record)                      (* LOG.warn *)
| Replayed (r : replay) (failed : bool).     (* a recording driver double *)

(* ===================================================================== *)
(** ** State and the monad                                               *)
(* ===================================================================== *)

(** A synchronizer object: [self.interval]; [None] is the constructor's
    default [interval=None]. *)
Record Synchronizer := { interval : option Z }.

Record World := {
  trace : list Event;
  synchronizer : option Synchronizer;        (* of the mechanism driver *)
  l3_synchronizer : option Synchronizer      (* of the L3 service plugin *)
}.

Definition fresh : World :=
  {| trace := []; synchronizer := None; l3_synchronizer := None |}.

Definition record_event (e : Event) (w : World) : World :=
  {| trace := trace w ++ [e];
     synchronizer := synchronizer w;
     l3_synchronizer := l3_synchronizer w |}.

Definition set_synchronizer (s : option Synchronizer) (w : World) : World :=
  {| trace := trace w; synchronizer := s;
     l3_synchronizer := l3_synchronizer w |}.

Definition set_l3_synchronizer (s : option Synchronizer) (w : World) : World :=
  {| trace := trace w; synchronizer := synchronizer w;
     l3_synchronizer := s |}.

(** How a call ends: with a value, with an exception, or, for the
    mutually recursive entry points, with the recursion budget used up. *)
Inductive Outcome (A : Type) : Type :=
| Returned (a : A)
| Raised (e : exn)
| OutOfFuel.
Arguments Returned {A} a.
Arguments Raised {A} e.
Arguments OutOfFuel {A}.

Definition M (A : Type) : Type := World -> World * Outcome A.

Definition ret {A} (a : A) : M A := fun w => (w, Returned a).

Definition raise {A} (e : exn) : M A := fun w => (w, Raised e).

Definition bind {A B} (m : M A) (k : A -> M B) : M B :=
  fun w =>
    match m w with
    | (w', Returned a) => k a w'
    | (w', Raised e) => (w', Raised e)
    | (w', OutOfFuel) => (w', OutOfFuel)
    end.

Declare Scope py_scope.
Delimit Scope py_scope with py.
Notation "x <- m ;; k" := (bind m (fun x => k))
  (at level 100, m at next level, right associativity) : py_scope.
Notation "m ;; k" := (bind m (fun _ => k))
  (at level 100, right associativity) : py_scope.
Local Open Scope py_scope.

Definition emit (e : Event) : M unit :=
  fun w => (record_event e w, Returned tt).

(** [try: body / except Exception: handler]. *)
Definition try_except {A} (body : M A) (handler : exn -> M A) : M A :=
  fun w =>
    match body w with
    | (w', Raised e) => handler e w'
    | r => r
    end.

(** [for x in xs: body(x)]. *)
Fixpoint for_each {A} (xs : list A) (body : A -> M unit) : M unit :=
  match xs with
  | [] => ret tt
  | x :: rest => body x ;; for_each rest body
  end.

(** [with self.apic_manager.apic.transaction() as trs: body].  The scope is
    a batching bracket (spec, section 5): entering and leaving it are
    recorded, and an exception of the body leaves the block and goes on. *)
Definition transaction {A} (body : M A) : M A :=
  fun w =>
    match body (record_event TxEnter w) with
    | (w', r) => (record_event TxExit w', r)
    end.

(** Python truthiness of the values the code branches on. *)
Definition truthy_str (s : string) : bool := negb (String.eqb s "").

Definition truthy_int (i : option Z) : bool :=
  match i with
  | Some z => negb (z =? 0)
  | None => false
  end.

(** [i > 0]; Python 2 orders [None] below every number. *)
Definition gt_zero (i : option Z) : bool :=
  match i with
  | Some z => 0 <? z
  | None => false
  end.

(* ===================================================================== *)
(** ** The environment: configuration and collaborators                  *)
(* ===================================================================== *)

(** The core plugin as the resync reads it: the three listings and the
    binding of a port to its segment. *)
Record CorePlugin := {
  get_networks : list Network;
  get_subnets : list Subnet;
  get_ports : list Port;
  port_binding : string -> option Segment
}.

Record Env := {
  core_plugin : CorePlugin;
  apic_sync_interval : option Z;             (* cfg apic_sync_interval *)
  ext_net_dict : gmap string ExtNetInfo;     (* apic_manager.ext_net_dict *)
  name_mapper_tenant : string -> string;
  name_mapper_network : string -> string;
  name_mapper_router : string -> string;
  name_mapper_subnet : string -> string;
  router_contract : string -> string;        (* value of get_router_contract *)
  prefixlen : string -> string;              (* str(netaddr.IPNetwork(c).prefixlen) *)
  apic_raises : list Event -> apic_manager.call -> option exn;
  l3_db_result : list Event -> l3_db.call -> exn + string
}.

(** [core_plugin.get_network(ctx, id)]: the row, or NetworkNotFound. *)
Definition lookup_network (cp : CorePlugin) (id : string) : option Network :=
  List.find (fun n => String.eqb (net_id n) id) (get_networks cp).

Definition lookup_subnet (cp : CorePlugin) (id : string) : option Subnet :=
  List.find (fun s => String.eqb (subnet_id s) id) (get_subnets cp).

Definition lookup_port (cp : CorePlugin) (id : string) : option Port :=
  List.find (fun p => String.eqb (port_id p) id) (get_ports cp).

Definition get_network (cp : CorePlugin) (id : string) : M Network :=
  match lookup_network cp id with
  | Some n => ret n
  | None => raise (NetworkNotFound id)
  end.

Definition get_subnet (cp : CorePlugin) (id : string) : M Subnet :=
  match lookup_subnet cp id with
  | Some s => ret s
  | None => raise (SubnetNotFound id)
  end.

Definition get_port (cp : CorePlugin) (id : string) : M Port :=
  match lookup_port cp id with
  | Some p => ret p
  | None => raise (PortNotFound id)
  end.

(** One call into the fabric manager: recorded, then answered by the
    oracle from everything that happened before it. *)
Definition apic (env : Env) (c : apic_manager.call) (trs : bool) : M unit :=
  fun w =>
    match apic_raises env (trace w) c with
    | Some e => (record_event (Apic c trs) w, Raised e)
    | None => (record_event (Apic c trs) w, Returned tt)
    end.

(** One call into the database mixins through [super]. *)
Definition super (env : Env) (c : l3_db.call) : M string :=
  fun w =>
    match l3_db_result env (trace w) c with
    | inl e => (record_event (L3Db c) w, Raised e)
    | inr v => (record_event (L3Db c) w, Returned v)
    end.

(* ===================================================================== *)
(** ** neutron.openstack.common.loopingcall                              *)
(* ===================================================================== *)

Module loopingcall.

(** Modelled from the spec: neutron.openstack.common.loopingcall is not
    among the sources.  Section 4.2 of the spec: a periodic engine fires
    once immediately, then again every [interval] seconds at a fixed
    rate, and hands back a cancellable handle.  A handle keeps the
    function, the interval it was started with and whether it is still
    running. *)
Record FixedIntervalLoopingCall := {
  f : M unit;
  started_with : option Z;
  running : bool
}.

Definition new (g : M unit) : FixedIntervalLoopingCall :=
  {| f := g; started_with := None; running := false |}.

(** Modelled from the spec: one firing runs the function on the current
    state; the loop goes on whatever the firing's outcome was. *)
Definition fire (lc : FixedIntervalLoopingCall) : M unit :=
  fun w =>
    match f lc w with
    | (w', OutOfFuel) => (w', OutOfFuel)
    | (w', _) => (w', Returned tt)
    end.

(** Modelled from the spec: [start] fires once immediately. *)
Definition start (lc : FixedIntervalLoopingCall) (i : Z)
  : M FixedIntervalLoopingCall :=
  fire lc ;;
  ret {| f := f lc; started_with := Some i; running := true |}.

(** Modelled from the spec: the handle is cancellable. *)
Definition stop (lc : FixedIntervalLoopingCall) : FixedIntervalLoopingCall :=
  {| f := f lc; started_with := started_with lc; running := false |}.

(** Modelled from the spec: fixed rate; the firings after the immediate
    one fall on the multiples of the interval, so [seconds] after the
    start [seconds / interval] of them are due. *)
Definition due (lc : FixedIntervalLoopingCall) (seconds : Z) : nat :=
  match started_with lc with
  | Some i => if running lc && (0 <? i) then Z.to_nat (seconds / i) else O
  | None => O
  end.

Fixpoint fire_times (lc : FixedIntervalLoopingCall) (n : nat) : M unit :=
  match n with
  | O => ret tt
  | S k => fire lc ;; fire_times lc k
  end.

(** The simulated clock advances by [seconds] after the start. *)
Definition elapse (lc : FixedIntervalLoopingCall) (seconds : Z) : M unit :=
  fire_times lc (due lc seconds).

End loopingcall.

(* ===================================================================== *)
(** ** apic_sync.py                                                      *)
(* ===================================================================== *)

Module apic_sync.

(** What the base synchronizer calls on [self.driver]. *)
Record MechanismDriver := {
  create_network_postcommit : NetworkContext -> M unit;
  create_subnet_postcommit : SubnetContext -> M unit;
  create_port_postcommit : PortContext -> M unit
}.

(** What the router synchronizer calls on [self.driver]. *)
Record RouterPlugin := {
  add_router_interface_postcommit : string -> InterfaceInfo -> M unit
}.

(** [SynchronizerBase.sync]. *)
Definition sync (self : Synchronizer) (f : M unit)
  : M (option loopingcall.FixedIntervalLoopingCall) :=
  if truthy_int (interval self) then
    if gt_zero (interval self) then
      match interval self with
      | Some i =>
          loop_call <- loopingcall.start (loopingcall.new f) i ;;
          ret (Some loop_call)
      | None => ret None
      end
    else ret None
  else
    (* Fire once *)
    f ;; ret None.

Section Base.
Variable cp : CorePlugin.
Variable driver : MechanismDriver.

(** [ApicBaseSynchronizer._sync_base]. *)
Definition _sync_base : M unit :=
  (* Sync Networks *)
  for_each (get_networks cp) (fun network =>
    let mech_context := {| nc_current := network |} in
    try_except (create_network_postcommit driver mech_context)
      (fun _ => emit (Warn (network_postcommit_failed (net_id network))))) ;;
  (* Sync Subnets *)
  for_each (get_subnets cp) (fun subnet =>
    let mech_context := {| sc_current := subnet |} in
    try_except (create_subnet_postcommit driver mech_context)
      (fun _ => emit (Warn (subnet_postcommit_failed (subnet_id subnet))))) ;;
  (* Sync Ports (compute/gateway/dhcp) *)
  for_each (get_ports cp) (fun port =>
    network <- get_network cp (port_network_id port) ;;
    let mech_context :=
      {| pc_current := port;
         pc_network := {| nc_current := network |};
         bound_segment := port_binding cp (port_id port) |} in
    try_except (create_port_postcommit driver mech_context)
      (fun _ => emit (Warn (port_postcommit_failed (port_id port))))).

(** [ApicBaseSynchronizer.sync_base]: the handle of [sync] is dropped. *)
Definition sync_base (self : Synchronizer) : M unit :=
  sync self _sync_base ;; ret tt.

End Base.

Section Router.
Variable cp : CorePlugin.
Variable driver : RouterPlugin.

(** [ApicRouterSynchronizer._sync_router]. *)
Definition _sync_router : M unit :=
  let r_if := DEVICE_OWNER_ROUTER_INTF in
  for_each (get_ports cp) (fun interface =>
    if String.eqb (device_owner interface) r_if then
      try_except
        (add_router_interface_postcommit driver (device_id interface)
           {| info_subnet_id := None;
              info_port_id := Some (port_id interface) |})
        (fun _ => emit (Warn (interface_postcommit_failed
                                (device_id interface) (port_id interface))))
    else ret tt).

(** [ApicRouterSynchronizer.sync_router]. *)
Definition sync_router (self : Synchronizer) : M unit :=
  sync self _sync_router ;; ret tt.

End Router.

End apic_sync.

(* ===================================================================== *)
(** ** mechanism_apic.py                                                 *)
(* ===================================================================== *)

(** [s.split(sep)] for a one-character separator. *)
Fixpoint split (sep : ascii) (s : string) : list string :=
  match s with
  | EmptyString => [EmptyString]
  | String c rest =>
      if Ascii.eqb c sep then EmptyString :: split sep rest
      else match split sep rest with
           | [] => [String c EmptyString]
           | part :: parts => String c part :: parts
           end
  end.

Module mechanism_apic.

(** The methods under [@sync_init], each with its argument. *)
Inductive method : Type :=
| m_create_port_postcommit (context : PortContext)
| m_update_port_postcommit (context : PortContext)
| m_delete_port_postcommit (context : PortContext)
| m_create_network_postcommit (context : NetworkContext)
| m_update_network_postcommit (context : NetworkContext)
| m_delete_network_postcommit (context : NetworkContext)
| m_create_subnet_postcommit (context : SubnetContext)
| m_update_subnet_postcommit (context : SubnetContext)
| m_delete_subnet_postcommit (context : SubnetContext).

Section WithEnv.
Variable env : Env.

Definition get_base_synchronizer : Synchronizer :=
  {| interval := apic_sync_interval env |}.

Definition get_router_synchronizer : Synchronizer :=
  {| interval := apic_sync_interval env |}.

(** The decorator [sync_init]: [inner] with the instance's resync
    [inst.synchronizer.sync_base()] passed in. *)
Definition sync_init {A} (sync_base : Synchronizer -> M unit) (f : M A)
  : M A :=
  fun w =>
    match synchronizer w with
    | None =>
        let s := get_base_synchronizer in
        (sync_base s ;; f) (set_synchronizer (Some s) w)
    | Some _ => f w
    end.

Definition _perform_path_port_operations
    (context : PortContext) (port : Port) : M unit :=
  (* Get network *)
  let network_id := net_id (nc_current (pc_network context)) in
  let anetwork_id := name_mapper_network env network_id in
  (* Get tenant details from port context *)
  let tenant_id := port_tenant_id (pc_current context) in
  let tenant_id := name_mapper_tenant env tenant_id in
  (* Get segmentation id *)
  match bound_segment context with
  | None => emit (Debug (port_not_bound port))
  | Some segment =>
      let seg :=
        if existsb (String.eqb (network_type segment)) [TYPE_VLAN]
        then segmentation_id segment
        else None in
      (* hosts on which this vlan is provisioned *)
      let host := host_id port in
      (* Create a static path attachment for the host/epg/switchport combo *)
      transaction
        (apic env (apic_manager.ensure_path_created_for_port
                     tenant_id anetwork_id host seg) true)
  end.

Definition _perform_gw_port_operations
    (context : PortContext) (port : Port) : M unit :=
  let router_id := device_id port in
  let network := nc_current (pc_network context) in
  let anetwork_id := name_mapper_network env (net_id network) in
  match truthy_str router_id, ext_net_dict env !! net_name network with
  | true, Some router_info =>
      let address := cidr_exposed router_info in
      let next_hop := ext_gateway_ip router_info in
      let encap := encap router_info in  (* No encap if None *)
      let switch := switch router_info in
      match split "/" (ext_port router_info) with
      | [module; sport] =>
          transaction
            ((* Get/Create contract *)
             let arouter_id := name_mapper_router env router_id in
             apic env (apic_manager.get_router_contract arouter_id) false ;;
             let cid := router_contract env arouter_id in
             (* Ensure that the external ctx exists *)
             apic env apic_manager.ensure_context_enforced false ;;
             (* Create External Routed Network and configure it *)
             apic env (apic_manager.ensure_external_routed_network_created
                         anetwork_id) true ;;
             apic env (apic_manager.ensure_logical_node_profile_created
                         anetwork_id switch module sport encap address)
                  true ;;
             apic env (apic_manager.ensure_static_route_created
                         anetwork_id switch next_hop) true ;;
             apic env (apic_manager.ensure_external_epg_created
                         anetwork_id) true ;;
             apic env (apic_manager.ensure_external_epg_consumed_contract
                         anetwork_id cid) true ;;
             apic env (apic_manager.ensure_external_epg_provided_contract
                         anetwork_id cid) true)
      | _ => raise ValueError
      end
  | _, _ => ret tt
  end.

Definition _perform_port_operations (context : PortContext) : M unit :=
  (* Get port *)
  let port := pc_current context in
  (* Check if a compute port *)
  if String.prefix "compute" (device_owner port) then
    _perform_path_port_operations context port
  else if String.eqb (device_owner port) DEVICE_OWNER_ROUTER_GW then
    _perform_gw_port_operations context port
  else if String.eqb (device_owner port) DEVICE_OWNER_DHCP then
    _perform_path_port_operations context port
  else ret tt.

Definition _delete_contract_if_gateway (context : PortContext) : M unit :=
  let port := pc_current context in
  if String.eqb (device_owner port) DEVICE_OWNER_ROUTER_GW then
    let network_id :=
      name_mapper_network env (net_id (nc_current (pc_network context))) in
    let arouter_id := name_mapper_router env (device_id port) in
    apic env (apic_manager.delete_external_epg_contract
                arouter_id network_id) false
  else ret tt.

(** The functions under the decorator, named after the method each one
    is the body of. *)
Definition f_create_port_postcommit (context : PortContext) : M unit :=
  _perform_port_operations context.

Definition f_update_port_postcommit (context : PortContext) : M unit :=
  _perform_port_operations context.

Definition f_delete_port_postcommit (context : PortContext) : M unit :=
  _delete_contract_if_gateway context.

Definition f_create_network_postcommit (context : NetworkContext)
  : M unit :=
  if negb (router_external (nc_current context)) then
    let tenant_id := net_tenant_id (nc_current context) in
    let network_id := net_id (nc_current context) in
    (* Convert to APIC IDs *)
    let tenant_id := name_mapper_tenant env tenant_id in
    let network_id := name_mapper_network env network_id in
    (* Create BD and EPG for this network *)
    transaction
      (apic env (apic_manager.ensure_bd_created_on_apic
                   tenant_id network_id) true ;;
       apic env (apic_manager.ensure_epg_created_for_network
                   tenant_id network_id) true)
  else ret tt.

(** [super().update_network_postcommit]: the driver api's empty body. *)
Definition f_update_network_postcommit (context : NetworkContext)
  : M unit := ret tt.

Definition f_delete_network_postcommit (context : NetworkContext)
  : M unit :=
  if negb (router_external (nc_current context)) then
    let tenant_id := net_tenant_id (nc_current context) in
    let network_id := net_id (nc_current context) in
    (* Convert to APIC IDs *)
    let tenant_id := name_mapper_tenant env tenant_id in
    let network_id := name_mapper_network env network_id in
    (* Delete BD and EPG for this network *)
    transaction
      (apic env (apic_manager.delete_epg_for_network
                   tenant_id network_id) true ;;
       apic env (apic_manager.delete_bd_on_apic
                   tenant_id network_id) true)
  else
    let network_name := net_name (nc_current context) in
    match ext_net_dict env !! network_name with
    | Some _ =>
        let network_id :=
          name_mapper_network env (net_id (nc_current context)) in
        apic env (apic_manager.delete_external_routed_network network_id)
             false
    | None => ret tt
    end.

Definition f_create_subnet_postcommit (context : SubnetContext)
  : M unit :=
  let tenant_id := subnet_tenant_id (sc_current context) in
  let network_id := subnet_network_id (sc_current context) in
  network <- get_network (core_plugin env) network_id ;;
  if negb (router_external network) then
    let gateway_ip := gateway_ip (sc_current context) in
    let netmask := prefixlen env (cidr (sc_current context)) in
    let gateway_ip := String.append gateway_ip (String.append "/" netmask) in
    (* Convert to APIC IDs *)
    let tenant_id := name_mapper_tenant env tenant_id in
    let network_id := name_mapper_network env network_id in
    (* Create subnet on BD *)
    apic env (apic_manager.ensure_subnet_created_on_apic
                tenant_id network_id gateway_ip) false
  else ret tt.

Definition f_update_subnet_postcommit (context : SubnetContext)
  : M unit := ret tt.

Definition f_delete_subnet_postcommit (context : SubnetContext)
  : M unit :=
  let tenant_id := subnet_tenant_id (sc_current context) in
  let network_id := subnet_network_id (sc_current context) in
  network <- get_network (core_plugin env) network_id ;;
  if negb (router_external network) then
    let gateway_ip := gateway_ip (sc_current context) in
    let netmask := prefixlen env (cidr (sc_current context)) in
    let gateway_ip := String.append gateway_ip (String.append "/" netmask) in
    (* Convert to APIC IDs *)
    let tenant_id := name_mapper_tenant env tenant_id in
    let network_id := name_mapper_network env network_id in
    apic env (apic_manager.ensure_subnet_deleted_on_apic
                tenant_id network_id gateway_ip) false
  else ret tt.

Definition out_of_fuel {A} : M A := fun w => (w, OutOfFuel).

(** The instance as its own synchronizer sees it.  A decorated method
    runs the resync, the resync calls decorated methods of the same
    instance: [fuel] bounds that nesting. *)
Fixpoint inst (fuel : nat) : apic_sync.MechanismDriver :=
  match fuel with
  | O =>
      {| apic_sync.create_network_postcommit := fun _ => out_of_fuel;
         apic_sync.create_subnet_postcommit := fun _ => out_of_fuel;
         apic_sync.create_port_postcommit := fun _ => out_of_fuel |}
  | S k =>
      let sync_base := apic_sync.sync_base (core_plugin env) (inst k) in
      {| apic_sync.create_network_postcommit := fun context =>
           sync_init sync_base (f_create_network_postcommit context);
         apic_sync.create_subnet_postcommit := fun context =>
           sync_init sync_base (f_create_subnet_postcommit context);
         apic_sync.create_port_postcommit := fun context =>
           sync_init sync_base (f_create_port_postcommit context) |}
  end.

(** [inner] of the decorator, on the instance. *)
Definition inner {A} (fuel : nat) (f : M A) : M A :=
  match fuel with
  | O => out_of_fuel
  | S k =>
      sync_init (apic_sync.sync_base (core_plugin env) (inst k)) f
  end.

Definition create_port_postcommit fuel context : M unit :=
  inner fuel (f_create_port_postcommit context).
Definition update_port_postcommit fuel context : M unit :=
  inner fuel (f_update_port_postcommit context).
Definition delete_port_postcommit fuel context : M unit :=
  inner fuel (f_delete_port_postcommit context).
Definition create_network_postcommit fuel context : M unit :=
  inner fuel (f_create_network_postcommit context).
Definition update_network_postcommit fuel context : M unit :=
  inner fuel (f_update_network_postcommit context).
Definition delete_network_postcommit fuel context : M unit :=
  inner fuel (f_delete_network_postcommit context).
Definition create_subnet_postcommit fuel context : M unit :=
  inner fuel (f_create_subnet_postcommit context).
Definition update_subnet_postcommit fuel context : M unit :=
  inner fuel (f_update_subnet_postcommit context).
Definition delete_subnet_postcommit fuel context : M unit :=
  inner fuel (f_delete_subnet_postcommit context).

(** A call of a decorated method, and the function under its
    decorator. *)
Definition call (fuel : nat) (m : method) : M unit :=
  match m with
  | m_create_port_postcommit c => create_port_postcommit fuel c
  | m_update_port_postcommit c => update_port_postcommit fuel c
  | m_delete_port_postcommit c => delete_port_postcommit fuel c
  | m_create_network_postcommit c => create_network_postcommit fuel c
  | m_update_network_postcommit c => update_network_postcommit fuel c
  | m_delete_network_postcommit c => delete_network_postcommit fuel c
  | m_create_subnet_postcommit c => create_subnet_postcommit fuel c
  | m_update_subnet_postcommit c => update_subnet_postcommit fuel c
  | m_delete_subnet_postcommit c => delete_subnet_postcommit fuel c
  end.

Definition undecorated (m : method) : M unit :=
  match m with
  | m_create_port_postcommit c => f_create_port_postcommit c
  | m_update_port_postcommit c => f_update_port_postcommit c
  | m_delete_port_postcommit c => f_delete_port_postcommit c
  | m_create_network_postcommit c => f_create_network_postcommit c
  | m_update_network_postcommit c => f_update_network_postcommit c
  | m_delete_network_postcommit c => f_delete_network_postcommit c
  | m_create_subnet_postcommit c => f_create_subnet_postcommit c
  | m_update_subnet_postcommit c => f_update_subnet_postcommit c
  | m_delete_subnet_postcommit c => f_delete_subnet_postcommit c
  end.

(** The instance with the decorator taken off the three methods a
    resync calls. *)
Definition plain : apic_sync.MechanismDriver :=
  {| apic_sync.create_network_postcommit := f_create_network_postcommit;
     apic_sync.create_subnet_postcommit := f_create_subnet_postcommit;
     apic_sync.create_port_postcommit := f_create_port_postcommit |}.

End WithEnv.

End mechanism_apic.

(* ===================================================================== *)
(** ** l3_apic.py                                                        *)
(* ===================================================================== *)

Module excutils.
(** Modelled from the spec: neutron.openstack.common.excutils is not
    among the sources.  [with save_and_reraise_exception(): body] inside
    an [except] block: the compensating body runs and the original error
    is re-raised (spec, section 4.5); an exception of the body itself
    leaves the block as any exception does. *)
Definition save_and_reraise_exception {A} (original : exn) (body : M unit)
  : M A :=
  body ;; raise original.
End excutils.

Module l3_apic.

(** The methods under [@sync_init], each with its arguments. *)
Inductive method : Type :=
| m_create_router (args : string)
| m_update_router (args : string)
| m_get_router (args : string)
| m_get_routers (args : string)
| m_get_routers_count (args : string)
| m_delete_router (router_id : string)
| m_add_router_interface (router_id : string) (interface_info : InterfaceInfo)
| m_remove_router_interface
    (router_id : string) (interface_info : InterfaceInfo).

Section WithEnv.
Variable env : Env.

(** [x and mapper(x)]. *)
Definition and_then (x : string) (mapper : string -> string) : string :=
  if truthy_str x then mapper x else x.

Definition _map_names (tenant_id router_id net_id : string)
    (subnet_id : option string)
  : string * string * string * option string :=
  let atenant_id := and_then tenant_id (name_mapper_tenant env) in
  let arouter_id := and_then router_id (name_mapper_router env) in
  let anet_id := and_then net_id (name_mapper_network env) in
  let asubnet_id :=
    match subnet_id with
    | Some s => Some (and_then s (name_mapper_subnet env))
    | None => None
    end in
  (atenant_id, arouter_id, anet_id, asubnet_id).

Definition add_router_interface_postcommit
    (router_id : string) (interface_info : InterfaceInfo) : M unit :=
  ids <-
    match info_subnet_id interface_info with
    | Some id =>                       (* 'subnet_id' in interface_info *)
        subnet <- get_subnet (core_plugin env) id ;;
        ret (subnet_network_id subnet, subnet_tenant_id subnet)
    | None =>
        match info_port_id interface_info with
        | Some id =>
            port <- get_port (core_plugin env) id ;;
            ret (port_network_id port, port_tenant_id port)
        | None => raise (KeyError "port_id")
        end
    end ;;
  let '(network_id, tenant_id) := ids in
  (* Map openstack IDs to APIC IDs *)
  let '(atenant_id, arouter_id, anetwork_id, _) :=
    _map_names tenant_id router_id network_id None in
  (* Program APIC *)
  apic env (apic_manager.add_router_interface
              atenant_id arouter_id anetwork_id) false.

Definition remove_router_interface_precommit
    (router_id : string) (interface_info : InterfaceInfo) : M unit :=
  ids <-
    match info_subnet_id interface_info with
    | Some id =>                       (* 'subnet_id' in interface_info *)
        subnet <- get_subnet (core_plugin env) id ;;
        ret (subnet_network_id subnet, subnet_tenant_id subnet)
    | None =>
        match info_port_id interface_info with
        | Some id =>
            port <- get_port (core_plugin env) id ;;
            ret (port_network_id port, port_tenant_id port)
        | None => raise (KeyError "port_id")
        end
    end ;;
  let '(network_id, tenant_id) := ids in
  (* Map openstack IDs to APIC IDs *)
  let '(atenant_id, arouter_id, anetwork_id, _) :=
    _map_names tenant_id router_id network_id None in
  (* Program APIC *)
  apic env (apic_manager.remove_router_interface
              atenant_id arouter_id anetwork_id) false.

Definition delete_router_postcommit (router_id : string) : M unit :=
  let arouter_id := and_then router_id (name_mapper_router env) in
  apic env (apic_manager.delete_router arouter_id) false.

(** The plugin as its router synchronizer sees it. *)
Definition inst : apic_sync.RouterPlugin :=
  {| apic_sync.add_router_interface_postcommit :=
       add_router_interface_postcommit |}.

(** The decorator [sync_init] of the plugin. *)
Definition sync_init {A} (f : M A) : M A :=
  fun w =>
    match l3_synchronizer w with
    | None =>
        let s := mechanism_apic.get_router_synchronizer env in
        (apic_sync.sync_router (core_plugin env) inst s ;; f)
          (set_l3_synchronizer (Some s) w)
    | Some _ => f w
    end.

(** The functions under the decorator. *)

(* Router API *)
Definition f_create_router (args : string) : M string :=
  super env (l3_db.create_router args).
Definition f_update_router (args : string) : M string :=
  super env (l3_db.update_router args).
Definition f_get_router (args : string) : M string :=
  super env (l3_db.get_router args).
Definition f_get_routers (args : string) : M string :=
  super env (l3_db.get_routers args).
Definition f_get_routers_count (args : string) : M string :=
  super env (l3_db.get_routers_count args).

Definition f_delete_router (router_id : string) : M string :=
  result <- super env (l3_db.delete_router router_id) ;;
  delete_router_postcommit router_id ;;
  ret result.

(* Router Interface API *)
Definition f_add_router_interface
    (router_id : string) (interface_info : InterfaceInfo) : M string :=
  (* Create interface in parent *)
  result <- super env (l3_db.add_router_interface router_id interface_info) ;;
  try_except
    (add_router_interface_postcommit router_id interface_info)
    (fun e =>
       excutils.save_and_reraise_exception e
         ((* Rollback db operation *)
          super env (l3_db.remove_router_interface
                       router_id interface_info) ;;
          ret tt)) ;;
  ret result.

Definition f_remove_router_interface
    (router_id : string) (interface_info : InterfaceInfo) : M string :=
  remove_router_interface_precommit router_id interface_info ;;
  super env (l3_db.remove_router_interface router_id interface_info).

Definition create_router args := sync_init (f_create_router args).
Definition update_router args := sync_init (f_update_router args).
Definition get_router args := sync_init (f_get_router args).
Definition get_routers args := sync_init (f_get_routers args).
Definition get_routers_count args := sync_init (f_get_routers_count args).
Definition delete_router router_id := sync_init (f_delete_router router_id).
Definition add_router_interface router_id interface_info :=
  sync_init (f_add_router_interface router_id interface_info).
Definition remove_router_interface router_id interface_info :=
  sync_init (f_remove_router_interface router_id interface_info).

(** A call of a decorated method, and the function under its
    decorator. *)
Definition call (m : method) : M string :=
  match m with
  | m_create_router a => create_router a
  | m_update_router a => update_router a
  | m_get_router a => get_router a
  | m_get_routers a => get_routers a
  | m_get_routers_count a => get_routers_count a
  | m_delete_router r => delete_router r
  | m_add_router_interface r i => add_router_interface r i
  | m_remove_router_interface r i => remove_router_interface r i
  end.

Definition undecorated (m : method) : M string :=
  match m with
  | m_create_router a => f_create_router a
  | m_update_router a => f_update_router a
  | m_get_router a => f_get_router a
  | m_get_routers a => f_get_routers a
  | m_get_routers_count a => f_get_routers_count a
  | m_delete_router r => f_delete_router r
  | m_add_router_interface r i => f_add_router_interface r i
  | m_remove_router_interface r i => f_remove_router_interface r i
  end.

End WithEnv.

End l3_apic.

(* ===================================================================== *)
(** ** Observing a run                                                   *)
(* ===================================================================== *)

(** The state after [evs] more events. *)
Definition add_events (evs : list Event) (w : World) : World :=
  {| trace := trace w ++ evs;
     synchronizer := synchronizer w;
     l3_synchronizer := l3_synchronizer w |}.

(** The fabric calls of a stretch of trace, in order. *)
Definition apic_calls (evs : list Event) : list apic_manager.call :=
  omap (fun e => match e with Apic c _ => Some c | _ => None end) evs.

(** The replays a recording driver saw, each with whether it failed. *)
Definition replays (evs : list Event) : list (replay * bool) :=
  omap (fun e => match e with Replayed r b => Some (r, b) | _ => None end) evs.

(** A recording double of [self.driver]: it notes the call and how it
    ends, and ends it the way the oracle [raises] says. *)
Module recording.
Section Double.
Variable raises : list Event -> replay -> option exn.

Definition replayed (r : replay) : M unit :=
  fun w =>
    match raises (trace w) r with
    | Some e => (record_event (Replayed r true) w, Raised e)
    | None => (record_event (Replayed r false) w, Returned tt)
    end.

Definition mechanism_driver : apic_sync.MechanismDriver :=
  {| apic_sync.create_network_postcommit := fun ctx =>
       replayed (replay_network ctx);
     apic_sync.create_subnet_postcommit := fun ctx =>
       replayed (replay_subnet ctx);
     apic_sync.create_port_postcommit := fun ctx =>
       replayed (replay_port ctx) |}.

Definition router_plugin : apic_sync.RouterPlugin :=
  {| apic_sync.add_router_interface_postcommit := fun router_id info =>
       replayed (replay_router_interface router_id info) |}.
End Double.
End recording.

(** The warning a resync logs when a replay fails. *)
Definition warning_for (r : replay) : log_record :=
  match r with
  | replay_network ctx => network_postcommit_failed (net_id (nc_current ctx))
  | replay_subnet ctx => subnet_postcommit_failed (subnet_id (sc_current ctx))
  | replay_port ctx => port_postcommit_failed (port_id (pc_current ctx))
  | replay_router_interface router_id info =>
      interface_postcommit_failed router_id (default "" (info_port_id info))
  end.

(** What one replay leaves in the trace: the call, and the warning when it
    failed. *)
Definition replay_log (r : replay) (failed : bool) : list Event :=
  Replayed r failed :: (if failed then [Warn (warning_for r)] else []).

(** A resync seen from outside: every replay, directly followed by its
    warning when it failed. *)
Definition resync_log (rs : list (replay * bool)) : list Event :=
  flat_map (fun rb => replay_log rb.1 rb.2) rs.

(** How the replays [rs], attempted one after the other from the trace
    [tr], end on a driver double: each one fails exactly when the oracle
    says so on the trace of that moment. *)
Fixpoint outcomes (raises : list Event -> replay -> option exn)
    (tr : list Event) (rs : list replay) : list (replay * bool) :=
  match rs with
  | [] => []
  | r :: rest =>
      let failed := match raises tr r with Some _ => true | None => false end in
      (r, failed) :: outcomes raises (tr ++ replay_log r failed) rest
  end.

(** The replay of a port, with the owning network fetched. *)
Definition port_replay (cp : CorePlugin) (p : Port) : option replay :=
  match lookup_network cp (port_network_id p) with
  | Some n =>
      Some (replay_port {| pc_current := p;
                           pc_network := {| nc_current := n |};
                           bound_segment := port_binding cp (port_id p) |})
  | None => None
  end.

Definition interface_replay (p : Port) : replay :=
  replay_router_interface (device_id p)
    {| info_subnet_id := None; info_port_id := Some (port_id p) |}.

Definition is_router_interface (p : Port) : bool :=
  String.eqb (device_owner p) DEVICE_OWNER_ROUTER_INTF.

(** Everything a base resync has to replay: the networks, then the
    subnets, then the ports with their owning networks. *)
Definition base_replays (cp : CorePlugin) : list replay :=
  map (fun n => replay_network {| nc_current := n |}) (get_networks cp)
  ++ map (fun s => replay_subnet {| sc_current := s |}) (get_subnets cp)
  ++ omap (port_replay cp) (get_ports cp).

(** Everything a router resync has to replay. *)
Definition router_replays (cp : CorePlugin) : list replay :=
  map interface_replay (List.filter is_router_interface (get_ports cp)).

(** Fabric calls issued one after the other, each with its
    [transaction=trs] flag. *)
Definition issue (env : Env) (calls : list (apic_manager.call * bool))
  : M unit :=
  for_each calls (fun c => apic env c.1 c.2).

Definition apic_events (calls : list (apic_manager.call * bool))
  : list Event :=
  map (fun c => Apic c.1 c.2) calls.

(** No run of [m] ends with an exception. *)
Definition never_raises {A} (m : M A) : Prop :=
  forall w e, (m w).2 <> Raised e.

(** [m] leaves the [synchronizer] attributes of both instances alone. *)
Definition keeps_handles {A} (m : M A) : Prop :=
  forall w, synchronizer (m w).1 = synchronizer w /\
            l3_synchronizer (m w).1 = l3_synchronizer w.

(** [m], run from [w], issues the fabric calls [calls] inside one
    transaction scope and in this order.  When no fabric call raises, the
    run leaves exactly: the scope entered, the calls, the scope left, and
    returns.  Whatever the fabric answers, what it leaves is the scope
    around the first [k] of the calls; it returns when all were issued and
    raises what the [k]-th call raised otherwise. *)
Definition issues_in_transaction (env : Env) (m : M unit)
    (calls : list (apic_manager.call * bool)) (w : World) : Prop :=
  ((forall tr c, apic_raises env tr c = None) ->
     m w = (add_events (TxEnter :: apic_events calls ++ [TxExit]) w,
            Returned tt)) /\
  (exists k,
     (m w).1
       = add_events (TxEnter :: apic_events (firstn k calls) ++ [TxExit]) w /\
     (((m w).2 = Returned tt /\ k = length calls) \/
      (exists e, (m w).2 = Raised e /\ (1 <= k <= length calls)%nat))).

(** The fabric calls of one gateway attachment: the router's contract is
    fetched, then the seven operations of the wiring. *)
Definition gateway_wiring (env : Env) (context : PortContext)
    (router_info : ExtNetInfo) (module sport : string)
  : list (apic_manager.call * bool) :=
  let anetwork_id :=
    name_mapper_network env (net_id (nc_current (pc_network context))) in
  let arouter_id :=
    name_mapper_router env (device_id (pc_current context)) in
  let cid := router_contract env arouter_id in
  [ (apic_manager.get_router_contract arouter_id, false);
    (apic_manager.ensure_context_enforced, false);
    (apic_manager.ensure_external_routed_network_created anetwork_id, true);
    (apic_manager.ensure_logical_node_profile_created
       anetwork_id (switch router_info) module sport (encap router_info)
       (cidr_exposed router_info), true);
    (apic_manager.ensure_static_route_created
       anetwork_id (switch router_info) (ext_gateway_ip router_info), true);
    (apic_manager.ensure_external_epg_created anetwork_id, true);
    (apic_manager.ensure_external_epg_consumed_contract anetwork_id cid, true);
    (apic_manager.ensure_external_epg_provided_contract anetwork_id cid, true)
  ].

(* ===================================================================== *)
(** ** A sample deployment                                               *)
(* ===================================================================== *)

Module sample.

Definition net1 : Network :=
  {| net_id := "n1"; net_tenant_id := "t1"; net_name := "private";
     router_external := false |}.

Definition ext1 : Network :=
  {| net_id := "n2"; net_tenant_id := "t1"; net_name := "public";
     router_external := true |}.

Definition ext2 : Network :=
  {| net_id := "n3"; net_tenant_id := "t1"; net_name := "unlisted";
     router_external := true |}.

Definition subnet1 : Subnet :=
  {| subnet_id := "s1"; subnet_network_id := "n1"; subnet_tenant_id := "t1";
     cidr := "10.0.0.0/24"; gateway_ip := "10.0.0.1" |}.

Definition vm_port : Port :=
  {| port_id := "p1"; port_network_id := "n1"; port_tenant_id := "t1";
     device_owner := "compute:nova"; device_id := "vm1";
     host_id := Some "h1" |}.

Definition dhcp_port : Port :=
  {| port_id := "p2"; port_network_id := "n1"; port_tenant_id := "t1";
     device_owner := "network:dhcp"; device_id := "dhcp1";
     host_id := Some "h1" |}.

Definition gw_port : Port :=
  {| port_id := "p3"; port_network_id := "n2"; port_tenant_id := "t1";
     device_owner := "network:router_gateway"; device_id := "r1";
     host_id := None |}.

Definition gw_port_unlisted : Port :=
  {| port_id := "p4"; port_network_id := "n3"; port_tenant_id := "t1";
     device_owner := "network:router_gateway"; device_id := "r1";
     host_id := None |}.

Definition intf_port : Port :=
  {| port_id := "p5"; port_network_id := "n1"; port_tenant_id := "t1";
     device_owner := "network:router_interface"; device_id := "r1";
     host_id := None |}.

Definition vlan100 : Segment :=
  {| network_type := "vlan"; segmentation_id := Some 100 |}.

Definition gre7 : Segment :=
  {| network_type := "gre"; segmentation_id := Some 7 |}.

Definition public_info : ExtNetInfo :=
  {| cidr_exposed := "192.168.0.2/24"; ext_gateway_ip := "192.168.0.1";
     encap := None; switch := "101"; ext_port := "1/2" |}.

Definition plugin : CorePlugin :=
  {| get_networks := [net1; ext1];
     get_subnets := [subnet1];
     get_ports := [vm_port; intf_port];
     port_binding := fun id =>
       if String.eqb id "p1" then Some vlan100 else None |}.

(** A deployment whose fabric and database never fail. *)
Definition env (sync_interval : option Z) : Env :=
  {| core_plugin := plugin;
     apic_sync_interval := sync_interval;
     ext_net_dict := {[ "public" := public_info ]};
     name_mapper_tenant := String.append "tn-";
     name_mapper_network := String.append "net-";
     name_mapper_router := String.append "rtr-";
     name_mapper_subnet := String.append "sub-";
     router_contract := String.append "contract-";
     prefixlen := fun _ => "24";
     apic_raises := fun _ _ => None;
     l3_db_result := fun _ _ => inr "ok" |}.

(** The same deployment with a fabric that refuses to add router
    interfaces. *)
Definition env_no_interfaces : Env :=
  {| core_plugin := plugin;
     apic_sync_interval := Some 0;
     ext_net_dict := {[ "public" := public_info ]};
     name_mapper_tenant := String.append "tn-";
     name_mapper_network := String.append "net-";
     name_mapper_router := String.append "rtr-";
     name_mapper_subnet := String.append "sub-";
     router_contract := String.append "contract-";
     prefixlen := fun _ => "24";
     apic_raises := fun _ c =>
       match c with
       | apic_manager.add_router_interface _ _ _ => Some (ApicError 500)
       | _ => None
       end;
     l3_db_result := fun _ _ => inr "ok" |}.

Definition vm_context (segment : option Segment) : PortContext :=
  {| pc_current := vm_port; pc_network := {| nc_current := net1 |};
     bound_segment := segment |}.

Definition gw_context : PortContext :=
  {| pc_current := gw_port; pc_network := {| nc_current := ext1 |};
     bound_segment := None |}.

Definition gw_context_unlisted : PortContext :=
  {| pc_current := gw_port_unlisted; pc_network := {| nc_current := ext2 |};
     bound_segment := None |}.

(** A reconciliation function that leaves one mark per run. *)
Definition reconcile : M unit :=
  emit (Replayed (replay_network {| nc_current := net1 |}) false).

(** A driver double on which the replay of [net1] fails. *)
Definition net1_fails (_ : list Event) (r : replay) : option exn :=
  match r with
  | replay_network ctx =>
      if String.eqb (net_id (nc_current ctx)) "n1"
      then Some (ApicError 500) else None
  | _ => None
  end.

(** An instance that has been through its gate. *)
Definition synced : World :=
  {| trace := [];
     synchronizer := Some {| interval := Some 0 |};
     l3_synchronizer := Some {| interval := Some 0 |} |}.

End sample.

(* ===================================================================== *)
(** ** Further vocabulary for the rest of the three files                *)
(* ===================================================================== *)

(** [sep.join(parts)]. *)
Fixpoint join (sep : ascii) (parts : list string) : string :=
  match parts with
  | [] => EmptyString
  | [part] => part
  | part :: rest => String.append part (String sep (join sep rest))
  end.

(** [s.count(c)]. *)
Fixpoint occurrences (c : ascii) (s : string) : nat :=
  match s with
  | EmptyString => O
  | String c' rest =>
      if Ascii.eqb c' c then S (occurrences c rest) else occurrences c rest
  end.

(** A fabric that answers every call. *)
Definition healthy (env : Env) : Prop :=
  forall tr c, apic_raises env tr c = None.

(** What [m] does is the same from every state: the same events are
    added and the call ends the same way. *)
Definition history_free {A} (m : M A) : Prop :=
  exists evs o, forall w, m w = (add_events evs w, o).

(** No run of [m] uses up the recursion budget. *)
Definition completes {A} (m : M A) : Prop :=
  forall w, (m w).2 <> OutOfFuel.

(** The network and the tenant of a router interface, as both hooks of the
    L3 plugin look them up: the subnet wins over the port, and an
    [interface_info] with neither key has no 'port_id' to read. *)
Definition interface_ids (cp : CorePlugin) (interface_info : InterfaceInfo)
  : exn + (string * string) :=
  match info_subnet_id interface_info with
  | Some id =>
      match lookup_subnet cp id with
      | Some subnet => inr (subnet_network_id subnet, subnet_tenant_id subnet)
      | None => inl (SubnetNotFound id)
      end
  | None =>
      match info_port_id interface_info with
      | Some id =>
          match lookup_port cp id with
          | Some port => inr (port_network_id port, port_tenant_id port)
          | None => inl (PortNotFound id)
          end
      | None => inl (KeyError "port_id")
      end
  end.

(** The database calls of a stretch of trace, in order. *)
Definition l3_db_calls (evs : list Event) : list l3_db.call :=
  omap (fun e => match e with L3Db c => Some c | _ => None end) evs.

(** Reads a stretch of trace as transaction scopes, starting inside or
    outside one: a scope is entered only from outside and left only from
    inside, a fabric call carries [transaction=trs] only inside a scope,
    and the stretch ends outside. *)
Fixpoint well_scoped (inside : bool) (evs : list Event) : bool :=
  match evs with
  | [] => negb inside
  | TxEnter :: rest => negb inside && well_scoped true rest
  | TxExit :: rest => inside && well_scoped false rest
  | Apic _ trs :: rest => implb trs inside && well_scoped inside rest
  | _ :: rest => well_scoped inside rest
  end.

(** Neither entering nor leaving a scope. *)
Definition scope_free (e : Event) : bool :=
  match e with
  | TxEnter | TxExit => false
  | _ => true
  end.

(** Every run of [m] adds a well-scoped stretch to the trace. *)
Definition scoped {A} (m : M A) : Prop :=
  forall w, exists evs,
    (m w).1 = add_events evs w /\ well_scoped false evs = true.

(** Every run of [m] adds events that neither enter nor leave a scope. *)
Definition stays_in_scope {A} (m : M A) : Prop :=
  forall w, exists evs,
    (m w).1 = add_events evs w /\ forallb scope_free evs = true.

(** A listing whose only port points at a network that is gone. *)
Definition dangling_plugin : CorePlugin :=
  {| get_networks := []; get_subnets := [];
     get_ports := [sample.vm_port];
     port_binding := fun _ => None |}.

Definition dangling_env : Env :=
  {| core_plugin := dangling_plugin;
     apic_sync_interval := Some 0;
     ext_net_dict := {[ "public" := sample.public_info ]};
     name_mapper_tenant := String.append "tn-";
     name_mapper_network := String.append "net-";
     name_mapper_router := String.append "rtr-";
     name_mapper_subnet := String.append "sub-";
     router_contract := String.append "contract-";
     prefixlen := fun _ => "24";
     apic_raises := fun _ _ => None;
     l3_db_result := fun _ _ => inr "ok" |}.

(** An external-network entry whose port lacks the slash. *)
Definition malformed_info : ExtNetInfo :=
  {| cidr_exposed := "192.168.0.2/24"; ext_gateway_ip := "192.168.0.1";
     encap := None; switch := "101"; ext_port := "12" |}.

Definition malformed_env : Env :=
  {| core_plugin := sample.plugin;
     apic_sync_interval := Some 0;
     ext_net_dict := {[ "public" := malformed_info ]};
     name_mapper_tenant := String.append "tn-";
     name_mapper_network := String.append "net-";
     name_mapper_router := String.append "rtr-";
     name_mapper_subnet := String.append "sub-";
     router_contract := String.append "contract-";
     prefixlen := fun _ => "24";
     apic_raises := fun _ _ => None;
     l3_db_result := fun _ _ => inr "ok" |}.

(** A fabric that refuses every call. *)
Definition refusing_env : Env :=
  {| core_plugin := sample.plugin;
     apic_sync_interval := Some 0;
     ext_net_dict := {[ "public" := sample.public_info ]};
     name_mapper_tenant := String.append "tn-";
     name_mapper_network := String.append "net-";
     name_mapper_router := String.append "rtr-";
     name_mapper_subnet := String.append "sub-";
     router_contract := String.append "contract-";
     prefixlen := fun _ => "24";
     apic_raises := fun _ _ => Some (ApicError 503);
     l3_db_result := fun _ _ => inr "ok" |}.

(** A database that refuses every call. *)
Definition db_down_env : Env :=
  {| core_plugin := sample.plugin;
     apic_sync_interval := Some 0;
     ext_net_dict := {[ "public" := sample.public_info ]};
     name_mapper_tenant := String.append "tn-";
     name_mapper_network := String.append "net-";
     name_mapper_router := String.append "rtr-";
     name_mapper_subnet := String.append "sub-";
     router_contract := String.append "contract-";
     prefixlen := fun _ => "24";
     apic_raises := fun _ _ => None;
     l3_db_result := fun _ _ => inl (ApicError 1) |}.

(* ===================================================================== *)
(** * Properties                                                         *)
(* ===================================================================== *)

(** ** The trace only grows *)

Lemma add_events_nil (w : World) : add_events [] w = w.
Proof. destruct w; unfold add_events; simpl. now rewrite app_nil_r. Qed.

Lemma add_events_app (a b : list Event) (w : World) :
  add_events b (add_events a w) = add_events (a ++ b) w.
Proof. unfold add_events; simpl. now rewrite app_assoc. Qed.

Lemma record_event_add (e : Event) (w : World) :
  record_event e w = add_events [e] w.
Proof. reflexivity. Qed.

Lemma add_events_cons (e : Event) (evs : list Event) (w : World) :
  add_events evs (record_event e w) = add_events (e :: evs) w.
Proof. rewrite record_event_add, add_events_app. reflexivity. Qed.

Lemma trace_add_events (evs : list Event) (w : World) :
  trace (add_events evs w) = trace w ++ evs.
Proof. reflexivity. Qed.

(* ===================================================================== *)
(** ** C1: the three modes of [SynchronizerBase.sync]                    *)
(* ===================================================================== *)

(** The handle of a periodic loop: [seconds] after its start,
    [seconds / i] further firings are due, and none once it is stopped. *)
Lemma started_loop_schedule (g : M unit) (i seconds : Z) :
  0 < i ->
  let lc := {| loopingcall.f := g; loopingcall.started_with := Some i;
               loopingcall.running := true |} in
  loopingcall.due lc seconds = Z.to_nat (seconds / i) /\
  loopingcall.due (loopingcall.stop lc) seconds = O.
Proof.
  intros Hi lc. unfold loopingcall.due, lc; simpl.
  destruct (0 <? i) eqn:E; [auto | apply Z.ltb_ge in E; lia].
Qed.

(** C1, as the code has it.  With a falsy interval, which is 0 and also the
    unset default, [sync f] is one synchronous run of [f] and nothing else;
    with a negative interval it leaves the state as it was, so [f] is never
    run; with a positive interval [i] the state after [sync] is the state
    after one run of [f], the result is a running handle on [f] started
    with [i], [seconds / i] further firings are due [seconds] later, and
    none after [stop]. *)
Theorem sync_mode_selection (self : Synchronizer) (f : M unit) (w : World) :
  (truthy_int (interval self) = false ->
     apic_sync.sync self f w = (f ;; ret None) w) /\
  (forall i, interval self = Some i -> i < 0 ->
     apic_sync.sync self f w = (w, Returned None)) /\
  (forall i, interval self = Some i -> 0 < i ->
     let lc := {| loopingcall.f := f; loopingcall.started_with := Some i;
                  loopingcall.running := true |} in
     (apic_sync.sync self f w).1 = (f w).1 /\
     ((f w).2 <> OutOfFuel ->
        (apic_sync.sync self f w).2 = Returned (Some lc)) /\
     (forall seconds,
        loopingcall.due lc seconds = Z.to_nat (seconds / i) /\
        loopingcall.due (loopingcall.stop lc) seconds = O)).
Proof.
  unfold apic_sync.sync. split; [| split].
  - intros Hfalsy. now rewrite Hfalsy.
  - intros i Hi Hneg. rewrite Hi; simpl.
    destruct (i =? 0) eqn:E0; [apply Z.eqb_eq in E0; lia |].
    destruct (0 <? i) eqn:E1; [apply Z.ltb_lt in E1; lia |].
    reflexivity.
  - intros i Hi Hpos. rewrite Hi; simpl.
    destruct (i =? 0) eqn:E0; [apply Z.eqb_eq in E0; lia |].
    destruct (0 <? i) eqn:E1; [| apply Z.ltb_ge in E1; lia].
    simpl. unfold bind, loopingcall.start, loopingcall.fire, bind; simpl.
    split; [| split].
    + destruct (f w) as [w' [[]|e|]]; reflexivity.
    + intros Hfuel.
      destruct (f w) as [w' [[]|e|]]; simpl in *; try reflexivity.
      now contradiction Hfuel.
    + intros seconds. apply (started_loop_schedule f i seconds Hpos).
Qed.

(** On the sample reconciliation function: interval 0 and the unset
    interval leave exactly one mark, interval -1 leaves none, and interval
    5 leaves one at once and hands back a handle. *)
Lemma sync_mode_selection_witness :
  apic_sync.sync {| interval := Some 0 |} sample.reconcile fresh
    = (sample.reconcile ;; ret None) fresh /\
  apic_sync.sync {| interval := Some (-1) |} sample.reconcile fresh
    = (fresh, Returned None) /\
  (apic_sync.sync {| interval := Some 5 |} sample.reconcile fresh).1
    = (sample.reconcile fresh).1.
Proof.
  split; [| split].
  - apply (sync_mode_selection {| interval := Some 0 |} sample.reconcile fresh).
    reflexivity.
  - apply (proj1 (proj2 (sync_mode_selection {| interval := Some (-1) |}
                           sample.reconcile fresh)) (-1)); [reflexivity | lia].
  - apply (proj2 (proj2 (sync_mode_selection {| interval := Some 5 |}
                           sample.reconcile fresh)) 5); [reflexivity | lia].
Defined.

(** The unset interval is falsy and not 0, yet the reconciliation function
    is run once: [sync] does not tell it from 0. *)
Lemma sync_unset_interval_fires_once :
  let unset := {| interval := None |} in
  truthy_int (interval unset) = false /\
  interval unset <> Some 0 /\
  trace (apic_sync.sync unset sample.reconcile fresh).1
    = [Replayed (replay_network {| nc_current := sample.net1 |}) false] /\
  apic_sync.sync unset sample.reconcile fresh <> (fresh, Returned None).
Proof.
  repeat split; try discriminate.
Qed.

(* ===================================================================== *)
(** ** C3 and C9: failure isolation of the two resync passes             *)
(* ===================================================================== *)

Lemma resync_log_app (a b : list (replay * bool)) :
  resync_log (a ++ b) = resync_log a ++ resync_log b.
Proof. unfold resync_log. apply flat_map_app. Qed.

Lemma outcomes_names raises tr rs : map fst (outcomes raises tr rs) = rs.
Proof.
  revert tr; induction rs as [| r rest IH]; intros tr; simpl; [reflexivity |].
  now rewrite IH.
Qed.

Lemma outcomes_app raises tr a b :
  outcomes raises tr (a ++ b)
  = outcomes raises tr a
    ++ outcomes raises (tr ++ resync_log (outcomes raises tr a)) b.
Proof.
  revert tr; induction a as [| r rest IH]; intros tr; simpl.
  - now rewrite app_nil_r.
  - rewrite IH. unfold resync_log at 2; simpl.
    now rewrite <- app_assoc.
Qed.

(** One guarded replay on a driver double never raises, and leaves the
    call and, when it failed, the warning. *)
Lemma guarded_replay raises (r : replay) (w : World) :
  try_except (recording.replayed raises r)
             (fun _ => emit (Warn (warning_for r))) w
  = (add_events
       (replay_log r (match raises (trace w) r with
                      | Some _ => true | None => false end)) w,
     Returned tt).
Proof.
  unfold try_except, recording.replayed, emit.
  destruct (raises (trace w) r); [| reflexivity].
  unfold record_event, add_events, replay_log; simpl.
  now rewrite <- app_assoc.
Qed.

(** A loop of guarded replays goes through the whole list. *)
Lemma replay_loop raises {A} (mk : A -> replay) (body : A -> M unit) :
  (forall x w,
      body x w = try_except (recording.replayed raises (mk x))
                   (fun _ => emit (Warn (warning_for (mk x)))) w) ->
  forall xs w,
    for_each xs body w
    = (add_events (resync_log (outcomes raises (trace w) (map mk xs))) w,
       Returned tt).
Proof.
  intros Hbody xs; induction xs as [| x rest IH]; intros w; simpl.
  - now rewrite add_events_nil.
  - unfold bind. rewrite Hbody, guarded_replay, IH.
    rewrite add_events_app, trace_add_events. reflexivity.
Qed.

(** The same for the loop over the ports, whose owning networks are
    fetched outside the guard. *)
Lemma port_replay_loop (cp : CorePlugin) raises (ps : list Port) :
  (forall p, In p ps -> lookup_network cp (port_network_id p) <> None) ->
  forall w,
    for_each ps (fun port =>
      network <- get_network cp (port_network_id port) ;;
      try_except
        (apic_sync.create_port_postcommit (recording.mechanism_driver raises)
           {| pc_current := port;
              pc_network := {| nc_current := network |};
              bound_segment := port_binding cp (port_id port) |})
        (fun _ => emit (Warn (port_postcommit_failed (port_id port))))) w
    = (add_events
         (resync_log (outcomes raises (trace w) (omap (port_replay cp) ps))) w,
       Returned tt).
Proof.
  induction ps as [| p rest IH]; intros Hnets w; simpl.
  - now rewrite add_events_nil.
  - assert (Hp : lookup_network cp (port_network_id p) <> None)
      by (apply Hnets; now left).
    unfold bind at 1, get_network, port_replay.
    destruct (lookup_network cp (port_network_id p)) as [n |] eqn:En;
      [| now contradiction Hp].
    unfold bind, ret; simpl.
    pose proof (guarded_replay raises
                  (replay_port {| pc_current := p;
                                  pc_network := {| nc_current := n |};
                                  bound_segment := port_binding cp (port_id p) |})
                  w) as Hstep.
    simpl in Hstep. rewrite Hstep.
    rewrite IH by (intros q Hq; apply Hnets; now right).
    rewrite add_events_app, trace_add_events. reflexivity.
Qed.

Lemma never_raises_ret {A} (a : A) : never_raises (ret a).
Proof. intros w e; discriminate. Qed.

Lemma never_raises_emit (ev : Event) : never_raises (emit ev).
Proof. intros w e; discriminate. Qed.

Lemma never_raises_try_except {A} (body : M A) (handler : exn -> M A) :
  (forall e, never_raises (handler e)) ->
  never_raises (try_except body handler).
Proof.
  intros Hh w e. unfold try_except.
  destruct (body w) as [w' [a | e' |]]; simpl; try discriminate.
  apply Hh.
Qed.

Lemma never_raises_bind {A B} (m : M A) (k : A -> M B) :
  never_raises m -> (forall a, never_raises (k a)) -> never_raises (bind m k).
Proof.
  intros Hm Hk w e. unfold bind. specialize (Hm w).
  destruct (m w) as [w' [a | e' |]]; simpl in *; try discriminate.
  - apply Hk.
  - now contradiction (Hm e').
Qed.

Lemma never_raises_for_each {A} (xs : list A) (body : A -> M unit) :
  (forall x, In x xs -> never_raises (body x)) ->
  never_raises (for_each xs body).
Proof.
  induction xs as [| x rest IH]; intros Hb; simpl.
  - apply never_raises_ret.
  - apply never_raises_bind; [apply Hb; now left |].
    intros _. apply IH. intros y Hy. apply Hb. now right.
Qed.

(** A guarded replay does not raise, whatever the driver. *)
Lemma never_raises_guarded (m : M unit) (r : log_record) :
  never_raises (try_except m (fun _ => emit (Warn r))).
Proof.
  apply never_raises_try_except. intros _. apply never_raises_emit.
Qed.

(** C3.  On any driver double, whatever subset of the replays it fails,
    and on any listing in which every port's owning network can be
    fetched, a base resync pass returns normally; it has replayed every
    network, then every subnet, then every port together with its owning
    network, in the order of the listings; and the trace it leaves is
    exactly those replays, each failed one directly followed by its
    warning.  On such a listing the pass raises on no driver at all. *)
Theorem sync_base_isolates_failures
    (cp : CorePlugin) (raises : list Event -> replay -> option exn)
    (w : World) :
  (forall p, In p (get_ports cp) ->
             lookup_network cp (port_network_id p) <> None) ->
  let rs := outcomes raises (trace w) (base_replays cp) in
  apic_sync._sync_base cp (recording.mechanism_driver raises) w
    = (add_events (resync_log rs) w, Returned tt) /\
  map fst rs = base_replays cp /\
  length rs = (length (get_networks cp) + length (get_subnets cp)
               + length (get_ports cp))%nat /\
  (forall driver, never_raises (apic_sync._sync_base cp driver)).
Proof.
  intros Hnets rs. split; [| split; [| split]].
  - unfold apic_sync._sync_base, bind.
    rewrite (replay_loop raises
               (fun n => replay_network {| nc_current := n |}))
      by (intros; reflexivity).
    rewrite (replay_loop raises
               (fun s => replay_subnet {| sc_current := s |}))
      by (intros; reflexivity).
    rewrite (port_replay_loop cp raises (get_ports cp) Hnets).
    rewrite !add_events_app, !trace_add_events.
    unfold rs, base_replays.
    rewrite !outcomes_app, !resync_log_app, <- !app_assoc.
    reflexivity.
  - apply outcomes_names.
  - unfold rs.
    rewrite <- (List.length_map fst (outcomes _ _ _)), outcomes_names.
    unfold base_replays. rewrite !List.length_app, !List.length_map.
    assert (Hlen : forall ps,
               (forall p, In p ps ->
                          lookup_network cp (port_network_id p) <> None) ->
               length (omap (port_replay cp) ps) = length ps).
    { induction ps as [| p rest IH]; intros H; simpl; [reflexivity |].
      unfold port_replay at 1.
      destruct (lookup_network cp (port_network_id p)) eqn:En.
      - simpl. f_equal. apply IH. intros q Hq; apply H; now right.
      - exfalso. apply (H p); [now left | exact En]. }
    rewrite (Hlen _ Hnets). lia.
  - intros driver. unfold apic_sync._sync_base.
    apply never_raises_bind;
      [apply never_raises_for_each; intros; apply never_raises_guarded |].
    intros _. apply never_raises_bind;
      [apply never_raises_for_each; intros; apply never_raises_guarded |].
    intros _. apply never_raises_for_each. intros p Hp.
    apply never_raises_bind; [| intros; apply never_raises_guarded].
    intros w0 e. unfold get_network.
    destruct (lookup_network cp (port_network_id p)) eqn:En;
      [discriminate | now contradiction (Hnets p Hp)].
Qed.

(** The sample deployment with a driver on which the replay of the first
    network fails: all five entities are replayed, one warning is logged,
    the pass returns. *)
Lemma sync_base_isolates_failures_witness :
  apic_sync._sync_base sample.plugin
    (recording.mechanism_driver sample.net1_fails) fresh
  = (add_events
       (resync_log (outcomes sample.net1_fails [] (base_replays sample.plugin)))
       fresh,
     Returned tt).
Proof.
  apply (sync_base_isolates_failures sample.plugin sample.net1_fails fresh).
  intros p [<- | [<- | []]]; discriminate.
Defined.

(** Where the guarantee of C3 ends: the owning network of a port is
    fetched outside the guard, so a port whose network is not in the
    listing ends the pass with that lookup's exception. *)
Example sync_base_dangling_port :
  let cp := {| get_networks := []; get_subnets := [];
               get_ports := [sample.vm_port];
               port_binding := fun _ => None |} in
  apic_sync._sync_base cp (recording.mechanism_driver (fun _ _ => None)) fresh
  = (fresh, Raised (NetworkNotFound "n1")).
Proof. reflexivity. Qed.

(** C9.  On any driver double, a router resync pass returns normally; it
    has replayed add-router-interface for exactly the ports whose
    [device_owner] is the router-interface constant, in the order of the
    listing, with the port's [device_id] as router and its id as the
    interface's [port_id]; and the trace it leaves is exactly those
    replays, each failed one directly followed by its warning.  The pass
    raises on no driver at all. *)
Theorem sync_router_selects_and_isolates
    (cp : CorePlugin) (raises : list Event -> replay -> option exn)
    (w : World) :
  let rs := outcomes raises (trace w) (router_replays cp) in
  apic_sync._sync_router cp (recording.router_plugin raises) w
    = (add_events (resync_log rs) w, Returned tt) /\
  map fst rs
    = map (fun p => replay_router_interface (device_id p)
                      {| info_subnet_id := None;
                         info_port_id := Some (port_id p) |})
          (List.filter (fun p => String.eqb (device_owner p)
                              DEVICE_OWNER_ROUTER_INTF) (get_ports cp)) /\
  (forall driver, never_raises (apic_sync._sync_router cp driver)).
Proof.
  intros rs. split; [| split; [apply outcomes_names |]].
  2: { intros driver. unfold apic_sync._sync_router.
       apply never_raises_for_each. intros p _.
       destruct (String.eqb (device_owner p) DEVICE_OWNER_ROUTER_INTF);
         [apply never_raises_guarded | apply never_raises_ret]. }
  unfold rs, router_replays, apic_sync._sync_router. clear rs.
  generalize (get_ports cp) as ps. intros ps; revert w.
  induction ps as [| p rest IH]; intros w; simpl.
  - now rewrite add_events_nil.
  - unfold bind at 1, is_router_interface. simpl.
    destruct (String.eqb (device_owner p) DEVICE_OWNER_ROUTER_INTF); simpl.
    + pose proof (guarded_replay raises (interface_replay p) w) as Hstep.
      simpl in Hstep. unfold interface_replay in *. rewrite Hstep.
      refine (eq_trans (IH _) _).
      rewrite add_events_app, trace_add_events. reflexivity.
    + unfold ret at 1. apply IH.
Qed.

(* ===================================================================== *)
(** ** The mechanism driver behind its gate                              *)
(* ===================================================================== *)

(** Once the instance holds a synchronizer, a decorated method is the
    function under the decorator. *)
Lemma inner_synced (env : Env) {A} (fuel : nat) (f : M A) (w : World) :
  synchronizer w <> None ->
  mechanism_apic.inner env (S fuel) f w = f w.
Proof.
  intros Hs. unfold mechanism_apic.inner, mechanism_apic.sync_init.
  destruct (synchronizer w); [reflexivity | now contradiction Hs].
Qed.

Lemma issue_all (env : Env) (calls : list (apic_manager.call * bool)) :
  (forall tr c, apic_raises env tr c = None) ->
  forall w, issue env calls w = (add_events (apic_events calls) w, Returned tt).
Proof.
  intros Hok. induction calls as [| c rest IH]; intros w; simpl.
  - unfold ret. now rewrite add_events_nil.
  - unfold issue in *; simpl. unfold bind, apic at 1. rewrite Hok.
    rewrite IH. now rewrite add_events_cons.
Qed.

Lemma issue_prefix (env : Env) (calls : list (apic_manager.call * bool)) :
  forall w, exists k,
    (issue env calls w).1 = add_events (apic_events (firstn k calls)) w /\
    (((issue env calls w).2 = Returned tt /\ k = length calls) \/
     (exists e, (issue env calls w).2 = Raised e /\
                (1 <= k <= length calls)%nat)).
Proof.
  induction calls as [| c rest IH]; intros w.
  - exists O; simpl. rewrite add_events_nil. split; [reflexivity | now left].
  - unfold issue in *; simpl. unfold bind, apic at 1 3 5.
    destruct (apic_raises env (trace w) c.1) as [e |].
    + exists 1%nat; simpl. split; [reflexivity |].
      right. exists e. split; [reflexivity | lia].
    + destruct (IH (record_event (Apic c.1 c.2) w)) as (k & Hw & Hres).
      exists (S k); simpl. rewrite Hw, add_events_cons.
      split; [reflexivity |].
      destruct Hres as [[Hr Hk] | (e & Hr & Hk)].
      * left. split; [exact Hr | now rewrite Hk].
      * right. exists e. split; [exact Hr | lia].
Qed.

(** A transaction block around a run of calls. *)
Lemma transaction_issue (env : Env) (m : M unit)
    (calls : list (apic_manager.call * bool)) (w : World) :
  m w = transaction (issue env calls) w ->
  issues_in_transaction env m calls w.
Proof.
  intros Hm. unfold issues_in_transaction. rewrite Hm. unfold transaction.
  split.
  - intros Hok. rewrite (issue_all env calls Hok).
    rewrite !record_event_add, !add_events_app. reflexivity.
  - destruct (issue_prefix env calls (record_event TxEnter w))
      as (k & Hw & Hres).
    exists k.
    destruct (issue env calls (record_event TxEnter w)) as [w' r]; simpl in *.
    subst w'. split; [| exact Hres].
    rewrite !record_event_add, !add_events_app. reflexivity.
Qed.

(** A run that ends with a call is that run followed by [ret tt]. *)
Lemma bind_ret_tt (m : M unit) (w : World) : (m ;; ret tt) w = m w.
Proof. unfold bind, ret. destruct (m w) as [w' [[] | e |]]; reflexivity. Qed.

Lemma transaction_ext {A} (m1 m2 : M A) (w : World) :
  (forall w', m1 w' = m2 w') -> transaction m1 w = transaction m2 w.
Proof. intros H. unfold transaction. now rewrite H. Qed.

Lemma bind_ext {A B} (m : M A) (k1 k2 : A -> M B) (w : World) :
  (forall a w', k1 a w' = k2 a w') -> bind m k1 w = bind m k2 w.
Proof.
  intros H. unfold bind. destruct (m w) as [w' [a | e |]]; auto.
Qed.

(** Compute and DHCP ports take the path-attachment branch. *)
Lemma path_dispatch (env : Env) (context : PortContext) :
  String.prefix "compute" (device_owner (pc_current context)) = true \/
  device_owner (pc_current context) = DEVICE_OWNER_DHCP ->
  mechanism_apic._perform_port_operations env context
  = mechanism_apic._perform_path_port_operations env context
      (pc_current context).
Proof.
  unfold mechanism_apic._perform_port_operations.
  intros [Hc | Hd]; [now rewrite Hc | now rewrite Hd].
Qed.

(** Gateway ports take the external-connectivity branch. *)
Lemma gw_dispatch (env : Env) (context : PortContext) :
  device_owner (pc_current context) = DEVICE_OWNER_ROUTER_GW ->
  mechanism_apic._perform_port_operations env context
  = mechanism_apic._perform_gw_port_operations env context
      (pc_current context).
Proof.
  unfold mechanism_apic._perform_port_operations. intros Hg. now rewrite Hg.
Qed.

Lemma truthy_str_nonempty (s : string) : s <> "" -> truthy_str s = true.
Proof.
  intros H. unfold truthy_str. destruct (String.eqb_spec s ""); [easy | reflexivity].
Qed.

(* ===================================================================== *)
(** ** C2: the order of the gateway wiring                               *)
(* ===================================================================== *)

(** C2.  For a gateway port with a non-empty [device_id] whose network
    name has an entry in the external-network table (its port being of the
    form module/sub-port), on an instance that is through its gate, create-
    and update-port-postcommit open one transaction scope and issue in it,
    in this order: the fetch of the router's contract, then context
    enforced, external routed network, logical node profile, static route,
    external EPG, consumed contract, provided contract; nothing else. *)
Theorem gateway_wiring_order (env : Env) (fuel : nat) (context : PortContext)
    (router_info : ExtNetInfo) (module sport : string) (w : World) :
  device_owner (pc_current context) = DEVICE_OWNER_ROUTER_GW ->
  device_id (pc_current context) <> "" ->
  ext_net_dict env !! net_name (nc_current (pc_network context))
    = Some router_info ->
  split "/" (ext_port router_info) = [module; sport] ->
  synchronizer w <> None ->
  issues_in_transaction env
    (mechanism_apic.create_port_postcommit env (S fuel) context)
    (gateway_wiring env context router_info module sport) w /\
  issues_in_transaction env
    (mechanism_apic.update_port_postcommit env (S fuel) context)
    (gateway_wiring env context router_info module sport) w /\
  map fst (gateway_wiring env context router_info module sport)
  = (let anet :=
       name_mapper_network env (net_id (nc_current (pc_network context))) in
     let arouter :=
       name_mapper_router env (device_id (pc_current context)) in
     let cid := router_contract env arouter in
     [ apic_manager.get_router_contract arouter;
       apic_manager.ensure_context_enforced;
       apic_manager.ensure_external_routed_network_created anet;
       apic_manager.ensure_logical_node_profile_created
         anet (switch router_info) module sport (encap router_info)
         (cidr_exposed router_info);
       apic_manager.ensure_static_route_created
         anet (switch router_info) (ext_gateway_ip router_info);
       apic_manager.ensure_external_epg_created anet;
       apic_manager.ensure_external_epg_consumed_contract anet cid;
       apic_manager.ensure_external_epg_provided_contract anet cid ]).
Proof.
  intros Hgw Hid Hinfo Hport Hsync.
  assert (Hbody : forall w',
             mechanism_apic._perform_port_operations env context w'
             = transaction
                 (issue env (gateway_wiring env context router_info
                               module sport)) w').
  { intros w'. rewrite (gw_dispatch env context Hgw).
    unfold mechanism_apic._perform_gw_port_operations.
    rewrite (truthy_str_nonempty _ Hid), Hinfo, Hport.
    apply transaction_ext; intros w1.
    unfold issue, gateway_wiring; simpl.
    repeat (apply bind_ext; intros [] ?).
    now rewrite bind_ret_tt. }
  assert (Hop : forall w',
             mechanism_apic.create_port_postcommit env (S fuel) context w'
             = mechanism_apic.update_port_postcommit env (S fuel) context w')
    by reflexivity.
  assert (Hmain : issues_in_transaction env
            (mechanism_apic.create_port_postcommit env (S fuel) context)
            (gateway_wiring env context router_info module sport) w).
  { apply transaction_issue.
    unfold mechanism_apic.create_port_postcommit,
      mechanism_apic.f_create_port_postcommit.
    rewrite (inner_synced env fuel _ w Hsync). apply Hbody. }
  split; [exact Hmain | split; [exact Hmain | reflexivity]].
Qed.

(** The sample gateway port on the listed network "public". *)
Lemma gateway_wiring_order_witness :
  issues_in_transaction (sample.env (Some 0))
    (mechanism_apic.create_port_postcommit (sample.env (Some 0)) 1
       sample.gw_context)
    (gateway_wiring (sample.env (Some 0)) sample.gw_context
       sample.public_info "1" "2") sample.synced.
Proof.
  apply (gateway_wiring_order (sample.env (Some 0)) 0 sample.gw_context
           sample.public_info "1" "2" sample.synced).
  - reflexivity.
  - discriminate.
  - vm_compute. reflexivity.
  - reflexivity.
  - discriminate.
Defined.

(** The same run, spelled out. *)
Example gateway_wiring_sample_trace :
  trace (mechanism_apic.create_port_postcommit (sample.env (Some 0)) 1
           sample.gw_context sample.synced).1
  = [ TxEnter;
      Apic (apic_manager.get_router_contract "rtr-r1") false;
      Apic apic_manager.ensure_context_enforced false;
      Apic (apic_manager.ensure_external_routed_network_created "net-n2") true;
      Apic (apic_manager.ensure_logical_node_profile_created
              "net-n2" "101" "1" "2" None "192.168.0.2/24") true;
      Apic (apic_manager.ensure_static_route_created
              "net-n2" "101" "192.168.0.1") true;
      Apic (apic_manager.ensure_external_epg_created "net-n2") true;
      Apic (apic_manager.ensure_external_epg_consumed_contract
              "net-n2" "contract-rtr-r1") true;
      Apic (apic_manager.ensure_external_epg_provided_contract
              "net-n2" "contract-rtr-r1") true;
      TxExit ].
Proof. vm_compute. reflexivity. Qed.

(* ===================================================================== *)
(** ** C6 and C10: path attachment of compute and DHCP ports             *)
(* ===================================================================== *)

(** The path-attachment branch on a bound port: one transaction scope with
    the one ensure-path call in it, whose outcome is the outcome of the
    call. *)
Lemma path_bound (env : Env) (context : PortContext) (segment : Segment)
    (w : World) :
  bound_segment context = Some segment ->
  let c :=
    apic_manager.ensure_path_created_for_port
      (name_mapper_tenant env (port_tenant_id (pc_current context)))
      (name_mapper_network env (net_id (nc_current (pc_network context))))
      (host_id (pc_current context))
      (if String.eqb (network_type segment) TYPE_VLAN
       then segmentation_id segment else None) in
  mechanism_apic._perform_path_port_operations env context
    (pc_current context) w
  = (add_events [TxEnter; Apic c true; TxExit] w,
     match apic_raises env (trace w ++ [TxEnter]) c with
     | Some e => Raised e
     | None => Returned tt
     end).
Proof.
  intros Hb; simpl.
  unfold mechanism_apic._perform_path_port_operations. rewrite Hb; simpl.
  rewrite orb_false_r. unfold transaction, apic; simpl.
  destruct (apic_raises env (trace w ++ [TxEnter]) _);
    unfold record_event, add_events; simpl; now rewrite <- !app_assoc.
Qed.

(** C6.  For a port whose [device_owner] starts with 'compute' or is
    network:dhcp, on an instance that is through its gate: without a bound
    segment, create- and update-port-postcommit only log, make no fabric
    call and return; bound to a VLAN segment with segmentation id [seg_id]
    on host [host], they make exactly one fabric call, ensure-path with
    the mapped tenant, the mapped network, [host] and [seg_id], inside one
    transaction scope, and end as that call ends. *)
Theorem path_port_dispatch (env : Env) (fuel : nat) (context : PortContext)
    (w : World)
    (op : Env -> nat -> PortContext -> M unit) :
  op = mechanism_apic.create_port_postcommit \/
  op = mechanism_apic.update_port_postcommit ->
  String.prefix "compute" (device_owner (pc_current context)) = true \/
  device_owner (pc_current context) = DEVICE_OWNER_DHCP ->
  synchronizer w <> None ->
  (bound_segment context = None ->
     op env (S fuel) context w
       = (add_events [Debug (port_not_bound (pc_current context))] w,
          Returned tt) /\
     apic_calls [Debug (port_not_bound (pc_current context))] = []) /\
  (forall segment seg_id host,
     bound_segment context = Some segment ->
     network_type segment = TYPE_VLAN ->
     segmentation_id segment = Some seg_id ->
     host_id (pc_current context) = Some host ->
     let c :=
       apic_manager.ensure_path_created_for_port
         (name_mapper_tenant env (port_tenant_id (pc_current context)))
         (name_mapper_network env (net_id (nc_current (pc_network context))))
         (Some host) (Some seg_id) in
     (op env (S fuel) context w).1
       = add_events [TxEnter; Apic c true; TxExit] w /\
     apic_calls [TxEnter; Apic c true; TxExit] = [c] /\
     (op env (S fuel) context w).2
       = match apic_raises env (trace w ++ [TxEnter]) c with
         | Some e => Raised e
         | None => Returned tt
         end).
Proof.
  intros Hop Howner Hsync.
  assert (Hrun : op env (S fuel) context w
                 = mechanism_apic._perform_path_port_operations env context
                     (pc_current context) w).
  { destruct Hop as [-> | ->];
      unfold mechanism_apic.create_port_postcommit,
        mechanism_apic.update_port_postcommit,
        mechanism_apic.f_create_port_postcommit,
        mechanism_apic.f_update_port_postcommit;
      rewrite (inner_synced env fuel _ w Hsync);
      now rewrite (path_dispatch env context Howner). }
  rewrite Hrun. split.
  - intros Hnone. split; [| reflexivity].
    unfold mechanism_apic._perform_path_port_operations. now rewrite Hnone.
  - intros segment seg_id host Hb Hvlan HS HH c.
    pose proof (path_bound env context segment w Hb) as Hpath.
    simpl in Hpath. rewrite Hvlan, HS, HH in Hpath. simpl in Hpath.
    fold c in Hpath. rewrite Hpath. repeat split.
Qed.

(** The sample compute port, unbound and bound to VLAN 100 on host h1. *)
Lemma path_port_dispatch_witness :
  mechanism_apic.create_port_postcommit (sample.env (Some 0)) 1
    (sample.vm_context None) sample.synced
  = (add_events [Debug (port_not_bound sample.vm_port)] sample.synced,
     Returned tt) /\
  (mechanism_apic.create_port_postcommit (sample.env (Some 0)) 1
     (sample.vm_context (Some sample.vlan100)) sample.synced).1
  = add_events
      [TxEnter;
       Apic (apic_manager.ensure_path_created_for_port
               "tn-t1" "net-n1" (Some "h1") (Some 100)) true;
       TxExit] sample.synced.
Proof.
  split.
  - apply (path_port_dispatch (sample.env (Some 0)) 0 (sample.vm_context None)
             sample.synced mechanism_apic.create_port_postcommit);
      [now left | now left | discriminate | reflexivity].
  - apply (proj2 (path_port_dispatch (sample.env (Some 0)) 0
                    (sample.vm_context (Some sample.vlan100))
                    sample.synced mechanism_apic.create_port_postcommit
                    (or_introl eq_refl) (or_introl eq_refl)
                    ltac:(discriminate))
             sample.vlan100 100 "h1");
      reflexivity.
Defined.

(** C10.  For a compute or DHCP port bound to a segment whose network type
    is not VLAN, create- and update-port-postcommit do not skip: they make
    exactly one fabric call, ensure-path with [None] as segmentation id,
    inside one transaction scope. *)
Theorem path_port_non_vlan (env : Env) (fuel : nat) (context : PortContext)
    (segment : Segment) (w : World)
    (op : Env -> nat -> PortContext -> M unit) :
  op = mechanism_apic.create_port_postcommit \/
  op = mechanism_apic.update_port_postcommit ->
  String.prefix "compute" (device_owner (pc_current context)) = true \/
  device_owner (pc_current context) = DEVICE_OWNER_DHCP ->
  synchronizer w <> None ->
  bound_segment context = Some segment ->
  network_type segment <> TYPE_VLAN ->
  let c :=
    apic_manager.ensure_path_created_for_port
      (name_mapper_tenant env (port_tenant_id (pc_current context)))
      (name_mapper_network env (net_id (nc_current (pc_network context))))
      (host_id (pc_current context)) None in
  (op env (S fuel) context w).1 = add_events [TxEnter; Apic c true; TxExit] w /\
  apic_calls [TxEnter; Apic c true; TxExit] = [c] /\
  (op env (S fuel) context w).2
    = match apic_raises env (trace w ++ [TxEnter]) c with
      | Some e => Raised e
      | None => Returned tt
      end.
Proof.
  intros Hop Howner Hsync Hb Hnv c.
  assert (Hrun : op env (S fuel) context w
                 = mechanism_apic._perform_path_port_operations env context
                     (pc_current context) w).
  { destruct Hop as [-> | ->];
      unfold mechanism_apic.create_port_postcommit,
        mechanism_apic.update_port_postcommit,
        mechanism_apic.f_create_port_postcommit,
        mechanism_apic.f_update_port_postcommit;
      rewrite (inner_synced env fuel _ w Hsync);
      now rewrite (path_dispatch env context Howner). }
  rewrite Hrun.
  pose proof (path_bound env context segment w Hb) as Hpath.
  simpl in Hpath.
  destruct (String.eqb_spec (network_type segment) TYPE_VLAN) as [E | _];
    [now contradiction Hnv |].
  fold c in Hpath. rewrite Hpath. repeat split.
Qed.

(** The sample compute port bound to a GRE segment. *)
Lemma path_port_non_vlan_witness :
  (mechanism_apic.update_port_postcommit (sample.env (Some 0)) 1
     (sample.vm_context (Some sample.gre7)) sample.synced).1
  = add_events
      [TxEnter;
       Apic (apic_manager.ensure_path_created_for_port
               "tn-t1" "net-n1" (Some "h1") None) true;
       TxExit] sample.synced.
Proof.
  apply (path_port_non_vlan (sample.env (Some 0)) 0
           (sample.vm_context (Some sample.gre7)) sample.gre7 sample.synced
           mechanism_apic.update_port_postcommit);
    [now right | now left | discriminate | reflexivity | discriminate].
Defined.

(* ===================================================================== *)
(** ** C8: gateway ports on networks without external configuration     *)
(* ===================================================================== *)

(** C8.  For a gateway port whose network name has no entry in the
    external-network table, create- and update-port-postcommit add nothing
    to what the gate of the instance does; on an instance that is through
    its gate they leave the trace as it was, so no fabric call is made, and
    they return. *)
Theorem gateway_unconfigured_skip (env : Env) (fuel : nat)
    (context : PortContext) (w : World)
    (op : Env -> nat -> PortContext -> M unit) :
  op = mechanism_apic.create_port_postcommit \/
  op = mechanism_apic.update_port_postcommit ->
  device_owner (pc_current context) = DEVICE_OWNER_ROUTER_GW ->
  ext_net_dict env !! net_name (nc_current (pc_network context)) = None ->
  op env fuel context w = mechanism_apic.inner env fuel (ret tt) w /\
  (synchronizer w <> None -> op env (S fuel) context w = (w, Returned tt)).
Proof.
  intros Hop Hgw Hnone.
  assert (Hbody : mechanism_apic._perform_port_operations env context
                  = ret tt).
  { rewrite (gw_dispatch env context Hgw).
    unfold mechanism_apic._perform_gw_port_operations. rewrite Hnone.
    now destruct (truthy_str _). }
  assert (Hrun : op env fuel context w
                 = mechanism_apic.inner env fuel (ret tt) w).
  { destruct Hop as [-> | ->];
      unfold mechanism_apic.create_port_postcommit,
        mechanism_apic.update_port_postcommit,
        mechanism_apic.f_create_port_postcommit,
        mechanism_apic.f_update_port_postcommit;
      now rewrite Hbody. }
  split; [exact Hrun |].
  intros Hsync.
  assert (Hrun' : op env (S fuel) context w
                  = mechanism_apic.inner env (S fuel) (ret tt) w).
  { destruct Hop as [-> | ->];
      unfold mechanism_apic.create_port_postcommit,
        mechanism_apic.update_port_postcommit,
        mechanism_apic.f_create_port_postcommit,
        mechanism_apic.f_update_port_postcommit;
      now rewrite Hbody. }
  rewrite Hrun'. now rewrite (inner_synced env fuel _ w Hsync).
Qed.

(** The sample gateway port on the network "unlisted". *)
Lemma gateway_unconfigured_skip_witness :
  mechanism_apic.create_port_postcommit (sample.env (Some 0)) 1
    sample.gw_context_unlisted sample.synced
  = (sample.synced, Returned tt).
Proof.
  apply (gateway_unconfigured_skip (sample.env (Some 0)) 0
           sample.gw_context_unlisted sample.synced
           mechanism_apic.create_port_postcommit);
    [now left | reflexivity | vm_compute; reflexivity | discriminate].
Defined.

(* ===================================================================== *)
(** ** C7: network events                                                *)
(* ===================================================================== *)

(** C7.  On an instance that is through its gate.  Create-network-
    postcommit does nothing for an external network; for any other it
    opens one transaction scope and ensures in it the bridge domain, then
    the EPG.  Delete-network-postcommit, for a network that is not
    external, opens one transaction scope and deletes in it the EPG, then
    the bridge domain; for an external network whose name has an entry in
    the external-network table it makes the one call that deletes the
    external routed network, outside any transaction scope; for an external
    network without entry it does nothing. *)
Theorem network_events (env : Env) (fuel : nat) (context : NetworkContext)
    (w : World) :
  synchronizer w <> None ->
  let tenant := name_mapper_tenant env (net_tenant_id (nc_current context)) in
  let network := name_mapper_network env (net_id (nc_current context)) in
  (router_external (nc_current context) = true ->
     mechanism_apic.create_network_postcommit env (S fuel) context w
       = (w, Returned tt)) /\
  (router_external (nc_current context) = false ->
     issues_in_transaction env
       (mechanism_apic.create_network_postcommit env (S fuel) context)
       [ (apic_manager.ensure_bd_created_on_apic tenant network, true);
         (apic_manager.ensure_epg_created_for_network tenant network, true) ]
       w) /\
  (router_external (nc_current context) = false ->
     issues_in_transaction env
       (mechanism_apic.delete_network_postcommit env (S fuel) context)
       [ (apic_manager.delete_epg_for_network tenant network, true);
         (apic_manager.delete_bd_on_apic tenant network, true) ]
       w) /\
  (router_external (nc_current context) = true ->
   ext_net_dict env !! net_name (nc_current context) = None ->
     mechanism_apic.delete_network_postcommit env (S fuel) context w
       = (w, Returned tt)) /\
  (forall info,
     router_external (nc_current context) = true ->
     ext_net_dict env !! net_name (nc_current context) = Some info ->
     let c := apic_manager.delete_external_routed_network network in
     mechanism_apic.delete_network_postcommit env (S fuel) context w
       = (add_events [Apic c false] w,
          match apic_raises env (trace w) c with
          | Some e => Raised e
          | None => Returned tt
          end)).
Proof.
  intros Hsync tenant network.
  unfold mechanism_apic.create_network_postcommit,
    mechanism_apic.delete_network_postcommit.
  split; [| split; [| split; [| split]]].
  - intros Hext. rewrite (inner_synced env fuel _ w Hsync).
    unfold mechanism_apic.f_create_network_postcommit. now rewrite Hext.
  - intros Hint. apply transaction_issue.
    rewrite (inner_synced env fuel _ w Hsync).
    unfold mechanism_apic.f_create_network_postcommit.
    rewrite Hint; simpl. apply transaction_ext; intros w1.
    unfold issue; simpl. apply bind_ext; intros [] w2.
    now rewrite bind_ret_tt.
  - intros Hint. apply transaction_issue.
    rewrite (inner_synced env fuel _ w Hsync).
    unfold mechanism_apic.f_delete_network_postcommit.
    rewrite Hint; simpl. apply transaction_ext; intros w1.
    unfold issue; simpl. apply bind_ext; intros [] w2.
    now rewrite bind_ret_tt.
  - intros Hext Hnone. rewrite (inner_synced env fuel _ w Hsync).
    unfold mechanism_apic.f_delete_network_postcommit.
    now rewrite Hext, Hnone.
  - intros info Hext Hinfo. rewrite (inner_synced env fuel _ w Hsync).
    unfold mechanism_apic.f_delete_network_postcommit.
    rewrite Hext, Hinfo; simpl. unfold apic. fold network.
    now destruct (apic_raises env (trace w) _).
Qed.

(** The sample private network, created and deleted, and the sample
    external network "public", deleted. *)
Lemma network_events_witness :
  issues_in_transaction (sample.env (Some 0))
    (mechanism_apic.create_network_postcommit (sample.env (Some 0)) 1
       {| nc_current := sample.net1 |})
    [ (apic_manager.ensure_bd_created_on_apic "tn-t1" "net-n1", true);
      (apic_manager.ensure_epg_created_for_network "tn-t1" "net-n1", true) ]
    sample.synced /\
  mechanism_apic.delete_network_postcommit (sample.env (Some 0)) 1
    {| nc_current := sample.ext1 |} sample.synced
  = (add_events
       [Apic (apic_manager.delete_external_routed_network "net-n2") false]
       sample.synced,
     Returned tt).
Proof.
  pose proof (network_events (sample.env (Some 0)) 0
                {| nc_current := sample.net1 |} sample.synced
                ltac:(discriminate)) as Hprivate.
  pose proof (network_events (sample.env (Some 0)) 0
                {| nc_current := sample.ext1 |} sample.synced
                ltac:(discriminate)) as Hpublic.
  split.
  - apply Hprivate. reflexivity.
  - apply (proj2 (proj2 (proj2 (proj2 Hpublic))) sample.public_info);
      [reflexivity | vm_compute; reflexivity].
Defined.

(* ===================================================================== *)
(** ** The synchronizer attribute is written by the gate alone           *)
(* ===================================================================== *)

Create HintDb handles.

Lemma keeps_ret {A} (a : A) : keeps_handles (ret a).
Proof. intros w; split; reflexivity. Qed.

Lemma keeps_raise {A} (e : exn) : keeps_handles (@raise A e).
Proof. intros w; split; reflexivity. Qed.

Lemma keeps_emit (e : Event) : keeps_handles (emit e).
Proof. intros w; split; reflexivity. Qed.

Lemma keeps_apic (env : Env) c trs : keeps_handles (apic env c trs).
Proof.
  intros w; unfold apic. destruct (apic_raises env (trace w) c); split;
    reflexivity.
Qed.

Lemma keeps_super (env : Env) c : keeps_handles (super env c).
Proof.
  intros w; unfold super. destruct (l3_db_result env (trace w) c); split;
    reflexivity.
Qed.

Lemma keeps_get_network cp id : keeps_handles (get_network cp id).
Proof.
  intros w; unfold get_network. destruct (lookup_network cp id); split;
    reflexivity.
Qed.

Lemma keeps_get_subnet cp id : keeps_handles (get_subnet cp id).
Proof.
  intros w; unfold get_subnet. destruct (lookup_subnet cp id); split;
    reflexivity.
Qed.

Lemma keeps_get_port cp id : keeps_handles (get_port cp id).
Proof.
  intros w; unfold get_port. destruct (lookup_port cp id); split;
    reflexivity.
Qed.

Lemma keeps_bind {A B} (m : M A) (k : A -> M B) :
  keeps_handles m -> (forall a, keeps_handles (k a)) ->
  keeps_handles (bind m k).
Proof.
  intros Hm Hk w. unfold bind. specialize (Hm w).
  destruct (m w) as [w' [a | e |]]; simpl in *; try exact Hm.
  destruct (Hk a w') as [H1 H2]. destruct Hm as [H3 H4].
  split; congruence.
Qed.

Lemma keeps_try_except {A} (body : M A) (handler : exn -> M A) :
  keeps_handles body -> (forall e, keeps_handles (handler e)) ->
  keeps_handles (try_except body handler).
Proof.
  intros Hm Hk w. unfold try_except. specialize (Hm w).
  destruct (body w) as [w' [a | e |]]; simpl in *; try exact Hm.
  destruct (Hk e w') as [H1 H2]. destruct Hm as [H3 H4].
  split; congruence.
Qed.

Lemma keeps_transaction {A} (m : M A) :
  keeps_handles m -> keeps_handles (transaction m).
Proof.
  intros Hm w. unfold transaction. specialize (Hm (record_event TxEnter w)).
  destruct (m (record_event TxEnter w)) as [w' r]; simpl in *. exact Hm.
Qed.

Lemma keeps_for_each {A} (xs : list A) (body : A -> M unit) :
  (forall x, keeps_handles (body x)) -> keeps_handles (for_each xs body).
Proof.
  intros Hb. induction xs as [| x rest IH]; simpl.
  - apply keeps_ret.
  - apply keeps_bind; [apply Hb | intros _; exact IH].
Qed.

#[local] Hint Resolve keeps_ret keeps_raise keeps_emit keeps_apic keeps_super
  keeps_get_network keeps_get_subnet keeps_get_port : handles.

(** Takes a run apart along its control structure. *)
Ltac handles :=
  repeat first
    [ match goal with
      | |- keeps_handles _ => fail 1
      | |- forall _, _ => intro
      end
    | solve [auto with handles]
    | apply keeps_bind
    | apply keeps_try_except
    | apply keeps_transaction
    | apply keeps_for_each
    | match goal with
      | |- keeps_handles (if ?b then _ else _) => destruct b
      | |- keeps_handles (match ?x with _ => _ end) => destruct x
      | |- keeps_handles (let '(_, _) := ?x in _) => destruct x
      end ].

Lemma keeps_undecorated (env : Env) (m : mechanism_apic.method) :
  keeps_handles (mechanism_apic.undecorated env m).
Proof.
  destruct m; simpl;
    unfold mechanism_apic.f_create_port_postcommit,
      mechanism_apic.f_update_port_postcommit,
      mechanism_apic.f_delete_port_postcommit,
      mechanism_apic.f_create_network_postcommit,
      mechanism_apic.f_update_network_postcommit,
      mechanism_apic.f_delete_network_postcommit,
      mechanism_apic.f_create_subnet_postcommit,
      mechanism_apic.f_update_subnet_postcommit,
      mechanism_apic.f_delete_subnet_postcommit,
      mechanism_apic._perform_port_operations,
      mechanism_apic._delete_contract_if_gateway,
      mechanism_apic._perform_path_port_operations,
      mechanism_apic._perform_gw_port_operations;
    handles.
Qed.

Lemma keeps_add_router_interface_postcommit (env : Env) router_id info :
  keeps_handles (l3_apic.add_router_interface_postcommit env router_id info).
Proof.
  unfold l3_apic.add_router_interface_postcommit, l3_apic._map_names.
  handles.
Qed.

#[local] Hint Resolve keeps_add_router_interface_postcommit : handles.

Lemma keeps_l3_undecorated (env : Env) (m : l3_apic.method) :
  keeps_handles (l3_apic.undecorated env m).
Proof.
  destruct m; simpl;
    unfold l3_apic.f_create_router, l3_apic.f_update_router,
      l3_apic.f_get_router, l3_apic.f_get_routers,
      l3_apic.f_get_routers_count, l3_apic.f_delete_router,
      l3_apic.f_add_router_interface, l3_apic.f_remove_router_interface,
      l3_apic.delete_router_postcommit,
      l3_apic.remove_router_interface_precommit, l3_apic._map_names,
      excutils.save_and_reraise_exception;
    handles.
Qed.

Lemma keeps_fire (lc : loopingcall.FixedIntervalLoopingCall) :
  keeps_handles (loopingcall.f lc) -> keeps_handles (loopingcall.fire lc).
Proof.
  intros Hf w. unfold loopingcall.fire. specialize (Hf w).
  destruct (loopingcall.f lc w) as [w' [a | e |]]; exact Hf.
Qed.

Lemma keeps_sync (self : Synchronizer) (f : M unit) :
  keeps_handles f -> keeps_handles (apic_sync.sync self f).
Proof.
  intros Hf. unfold apic_sync.sync, loopingcall.start.
  handles. apply keeps_fire. exact Hf.
Qed.

Lemma keeps_plain (env : Env) :
  (forall c, keeps_handles
               (apic_sync.create_network_postcommit (mechanism_apic.plain env) c)) /\
  (forall c, keeps_handles
               (apic_sync.create_subnet_postcommit (mechanism_apic.plain env) c)) /\
  (forall c, keeps_handles
               (apic_sync.create_port_postcommit (mechanism_apic.plain env) c)).
Proof.
  split; [| split]; intros c.
  - apply (keeps_undecorated env (mechanism_apic.m_create_network_postcommit c)).
  - apply (keeps_undecorated env (mechanism_apic.m_create_subnet_postcommit c)).
  - apply (keeps_undecorated env (mechanism_apic.m_create_port_postcommit c)).
Qed.

Lemma keeps_sync_base_plain (env : Env) (s : Synchronizer) :
  keeps_handles
    (apic_sync.sync_base (core_plugin env) (mechanism_apic.plain env) s).
Proof.
  destruct (keeps_plain env) as (Hn & Hs & Hp).
  unfold apic_sync.sync_base. apply keeps_bind; [| handles].
  apply keeps_sync. unfold apic_sync._sync_base. handles.
Qed.

Lemma keeps_sync_router (env : Env) (s : Synchronizer) :
  keeps_handles
    (apic_sync.sync_router (core_plugin env) (l3_apic.inst env) s).
Proof.
  unfold apic_sync.sync_router. apply keeps_bind; [| handles].
  apply keeps_sync. unfold apic_sync._sync_router. handles.
Qed.

(* ===================================================================== *)
(** ** C5: the gate in front of the decorated methods                    *)
(* ===================================================================== *)

Lemma keeps_synced {A} (m : M A) (w : World) :
  keeps_handles m -> synchronizer w <> None -> synchronizer (m w).1 <> None.
Proof. intros Hm Hs. destruct (Hm w) as [H _]. now rewrite H. Qed.

Lemma bind_agree {A B} (m1 m2 : M A) (k1 k2 : A -> M B) (w : World) :
  m1 w = m2 w -> keeps_handles m2 -> synchronizer w <> None ->
  (forall a w', synchronizer w' <> None -> k1 a w' = k2 a w') ->
  bind m1 k1 w = bind m2 k2 w.
Proof.
  intros Hm Hkeep Hs Hk. unfold bind. rewrite Hm.
  pose proof (keeps_synced m2 w Hkeep Hs) as Hs'.
  destruct (m2 w) as [w' [a | e |]]; simpl in *; auto.
Qed.

Lemma for_each_agree {A} (xs : list A) (b1 b2 : A -> M unit) :
  (forall x w, synchronizer w <> None -> b1 x w = b2 x w) ->
  (forall x, keeps_handles (b2 x)) ->
  forall w, synchronizer w <> None -> for_each xs b1 w = for_each xs b2 w.
Proof.
  intros Hb Hkeep. induction xs as [| x rest IH]; intros w Hs; simpl.
  - reflexivity.
  - apply bind_agree; auto.
Qed.

Lemma try_except_agree {A} (m1 m2 : M A) (h : exn -> M A) (w : World) :
  m1 w = m2 w -> try_except m1 h w = try_except m2 h w.
Proof. intros H. unfold try_except. now rewrite H. Qed.

(** Called on an instance that holds a synchronizer, the decorated
    instance is the plain one. *)
Lemma inst_synced (env : Env) (fuel : nat) (w : World) :
  synchronizer w <> None ->
  (forall c, apic_sync.create_network_postcommit
               (mechanism_apic.inst env (S fuel)) c w
             = apic_sync.create_network_postcommit
                 (mechanism_apic.plain env) c w) /\
  (forall c, apic_sync.create_subnet_postcommit
               (mechanism_apic.inst env (S fuel)) c w
             = apic_sync.create_subnet_postcommit
                 (mechanism_apic.plain env) c w) /\
  (forall c, apic_sync.create_port_postcommit
               (mechanism_apic.inst env (S fuel)) c w
             = apic_sync.create_port_postcommit
                 (mechanism_apic.plain env) c w).
Proof.
  intros Hs. simpl. unfold mechanism_apic.sync_init.
  destruct (synchronizer w); [| now contradiction Hs].
  repeat split.
Qed.

(** So a resync that runs behind the gate does not go through the gate
    again, and one level of nesting is all it needs. *)
Lemma sync_base_behind_gate (env : Env) (fuel : nat) (w : World) :
  synchronizer w <> None ->
  apic_sync._sync_base (core_plugin env) (mechanism_apic.inst env (S fuel)) w
  = apic_sync._sync_base (core_plugin env) (mechanism_apic.plain env) w.
Proof.
  intros Hs. destruct (keeps_plain env) as (Hn & Hsn & Hp).
  unfold apic_sync._sync_base.
  apply bind_agree; [| handles | exact Hs |].
  { apply for_each_agree; [| handles | exact Hs].
    intros x w' Hs'. apply try_except_agree.
    apply (inst_synced env fuel w' Hs'). }
  intros _ w1 Hs1.
  apply bind_agree; [| handles | exact Hs1 |].
  { apply for_each_agree; [| handles | exact Hs1].
    intros x w' Hs'. apply try_except_agree.
    apply (inst_synced env fuel w' Hs'). }
  intros _ w2 Hs2.
  apply for_each_agree; [| handles | exact Hs2].
  intros x w' Hs'.
  apply bind_agree; [reflexivity | handles | exact Hs' |].
  intros n w3 Hs3. apply try_except_agree.
  apply (inst_synced env fuel w3 Hs3).
Qed.

Lemma sync_base_agree (cp : CorePlugin) (d1 d2 : apic_sync.MechanismDriver)
    (s : Synchronizer) (w : World) :
  apic_sync._sync_base cp d1 w = apic_sync._sync_base cp d2 w ->
  apic_sync.sync_base cp d1 s w = apic_sync.sync_base cp d2 s w.
Proof.
  intros H. unfold apic_sync.sync_base, apic_sync.sync.
  destruct (truthy_int (interval s)).
  - destruct (gt_zero (interval s)); [| reflexivity].
    destruct (interval s); [| reflexivity].
    unfold bind, loopingcall.start, loopingcall.fire, bind; simpl.
    rewrite H.
    now destruct (apic_sync._sync_base cp d2 w) as [w' [[] | e |]].
  - unfold bind. rewrite H.
    now destruct (apic_sync._sync_base cp d2 w) as [w' [[] | e |]].
Qed.

Lemma call_inner (env : Env) (fuel : nat) (m : mechanism_apic.method) :
  mechanism_apic.call env fuel m
  = mechanism_apic.inner env fuel (mechanism_apic.undecorated env m).
Proof. now destruct m. Qed.

Lemma l3_call_inner (env : Env) (m : l3_apic.method) :
  l3_apic.call env m = l3_apic.sync_init env (l3_apic.undecorated env m).
Proof. now destruct m. Qed.

(** C5, as the code has it.  For every decorated method of the mechanism
    driver and of the L3 plugin.  Called on an instance whose synchronizer
    is unset, it constructs the synchronizer from the configured interval,
    stores it, calls its [sync_base()] (for the plugin [sync_router()])
    once, and only then runs the function under the decorator; the methods
    that this resync calls on the instance run undecorated.  Called on an
    instance that holds a synchronizer, it runs the function under the
    decorator and nothing else.  Either way the instance afterwards holds
    the synchronizer it held before, or the one just constructed. *)
Theorem sync_once_gate (env : Env) (fuel : nat)
    (m : mechanism_apic.method) (r : l3_apic.method) (w : World) :
  let s := {| interval := apic_sync_interval env |} in
  (synchronizer w = None ->
     mechanism_apic.call env (S (S fuel)) m w
       = (apic_sync.sync_base (core_plugin env) (mechanism_apic.plain env) s ;;
          mechanism_apic.undecorated env m) (set_synchronizer (Some s) w) /\
     synchronizer (mechanism_apic.call env (S (S fuel)) m w).1 = Some s) /\
  (forall s0, synchronizer w = Some s0 ->
     mechanism_apic.call env (S fuel) m w = mechanism_apic.undecorated env m w /\
     synchronizer (mechanism_apic.call env (S fuel) m w).1 = Some s0) /\
  (l3_synchronizer w = None ->
     l3_apic.call env r w
       = (apic_sync.sync_router (core_plugin env) (l3_apic.inst env) s ;;
          l3_apic.undecorated env r) (set_l3_synchronizer (Some s) w) /\
     l3_synchronizer (l3_apic.call env r w).1 = Some s) /\
  (forall s0, l3_synchronizer w = Some s0 ->
     l3_apic.call env r w = l3_apic.undecorated env r w /\
     l3_synchronizer (l3_apic.call env r w).1 = Some s0).
Proof.
  intros s. split; [| split; [| split]].
  - intros Hnone.
    assert (Hcall :
              mechanism_apic.call env (S (S fuel)) m w
              = (apic_sync.sync_base (core_plugin env)
                   (mechanism_apic.plain env) s ;;
                 mechanism_apic.undecorated env m)
                  (set_synchronizer (Some s) w)).
    { rewrite call_inner.
      unfold mechanism_apic.inner, mechanism_apic.sync_init. rewrite Hnone.
      fold s. unfold mechanism_apic.get_base_synchronizer. fold s.
      unfold bind.
      rewrite (sync_base_agree (core_plugin env)
                 (mechanism_apic.inst env (S fuel)) (mechanism_apic.plain env)
                 s (set_synchronizer (Some s) w));
        [reflexivity |].
      apply sync_base_behind_gate. discriminate. }
    split; [exact Hcall |]. rewrite Hcall.
    assert (Hkeep : keeps_handles
                      (apic_sync.sync_base (core_plugin env)
                         (mechanism_apic.plain env) s ;;
                       mechanism_apic.undecorated env m)).
    { apply keeps_bind; [apply keeps_sync_base_plain |].
      intros _. apply keeps_undecorated. }
    now rewrite (proj1 (Hkeep (set_synchronizer (Some s) w))).
  - intros s0 Hs0.
    assert (Hcall : mechanism_apic.call env (S fuel) m w
                    = mechanism_apic.undecorated env m w).
    { rewrite call_inner. apply inner_synced. now rewrite Hs0. }
    split; [exact Hcall |]. rewrite Hcall.
    now rewrite (proj1 (keeps_undecorated env m w)).
  - intros Hnone.
    assert (Hcall :
              l3_apic.call env r w
              = (apic_sync.sync_router (core_plugin env) (l3_apic.inst env) s ;;
                 l3_apic.undecorated env r)
                  (set_l3_synchronizer (Some s) w)).
    { rewrite l3_call_inner. unfold l3_apic.sync_init. now rewrite Hnone. }
    split; [exact Hcall |]. rewrite Hcall.
    assert (Hkeep : keeps_handles
                      (apic_sync.sync_router (core_plugin env)
                         (l3_apic.inst env) s ;;
                       l3_apic.undecorated env r)).
    { apply keeps_bind; [apply keeps_sync_router |].
      intros _. apply keeps_l3_undecorated. }
    now rewrite (proj2 (Hkeep (set_l3_synchronizer (Some s) w))).
  - intros s0 Hs0.
    assert (Hcall : l3_apic.call env r w = l3_apic.undecorated env r w).
    { rewrite l3_call_inner. unfold l3_apic.sync_init. now rewrite Hs0. }
    split; [exact Hcall |]. rewrite Hcall.
    now rewrite (proj2 (keeps_l3_undecorated env r w)).
Qed.

(** The first two events on a fresh sample deployment with interval 0:
    the first call runs the resync and then the event, the second call the
    event alone. *)
Lemma sync_once_gate_witness :
  let env := sample.env (Some 0) in
  let event :=
    mechanism_apic.m_create_network_postcommit {| nc_current := sample.ext1 |} in
  let first := mechanism_apic.call env 2 event fresh in
  first
    = (apic_sync.sync_base sample.plugin (mechanism_apic.plain env)
         {| interval := Some 0 |} ;;
       mechanism_apic.undecorated env event)
        (set_synchronizer (Some {| interval := Some 0 |}) fresh) /\
  mechanism_apic.call env 1 event first.1
    = mechanism_apic.undecorated env event first.1.
Proof.
  intros env event first.
  pose proof (sync_once_gate env 0 event (l3_apic.m_get_router "r1") fresh)
    as (Hfresh & _).
  destruct (Hfresh eq_refl) as [Hcall Hhandle].
  split; [exact Hcall |].
  apply (proj1 (proj2 (sync_once_gate env 0 event (l3_apic.m_get_router "r1")
                         first.1)) _ Hhandle).
Defined.

(** The sample run of the gate, spelled out: the first event replays the
    whole deployment before it is handled, the second adds nothing. *)
Example gate_sample_run :
  let env := sample.env (Some 0) in
  let event :=
    mechanism_apic.m_create_network_postcommit {| nc_current := sample.ext1 |} in
  let first := mechanism_apic.call env 2 event fresh in
  let second := mechanism_apic.call env 2 event first.1 in
  apic_calls (trace first.1)
    = [ apic_manager.ensure_bd_created_on_apic "tn-t1" "net-n1";
        apic_manager.ensure_epg_created_for_network "tn-t1" "net-n1";
        apic_manager.ensure_subnet_created_on_apic "tn-t1" "net-n1" "10.0.0.1/24";
        apic_manager.ensure_path_created_for_port
          "tn-t1" "net-n1" (Some "h1") (Some 100) ] /\
  first.2 = Returned tt /\
  trace second.1 = trace first.1 /\
  second.2 = Returned tt.
Proof. vm_compute. repeat split. Qed.

(** With a negative configured interval the first call on a fresh
    instance stores the synchronizer and handles the event, but nothing is
    replayed, while a full resync of the same deployment would have made
    fabric calls. *)
Lemma gate_with_sync_disabled :
  let env := sample.env (Some (-1)) in
  let event :=
    mechanism_apic.m_create_network_postcommit {| nc_current := sample.ext1 |} in
  let stored := set_synchronizer (Some {| interval := Some (-1) |}) fresh in
  synchronizer fresh = None /\
  mechanism_apic.call env 2 event fresh = (stored, Returned tt) /\
  apic_calls
    (trace (apic_sync._sync_base (core_plugin env) (mechanism_apic.plain env)
              stored).1) <> [].
Proof. vm_compute. repeat split. discriminate. Qed.

(* ===================================================================== *)
(** ** C4: rollback of add_router_interface                              *)
(* ===================================================================== *)

(** C4.  On a plugin that is through its gate, once the database mixin has
    created the interface and returned [result]: if the postcommit hook
    returns, [add_router_interface] returns [result] and nothing is undone;
    if the hook raises [e], the very next thing is the compensating
    [remove_router_interface] of the database mixin with the same
    arguments, and, that removal done, [e] itself is what
    [add_router_interface] raises. *)
Theorem add_router_interface_rollback (env : Env)
    (router_id : string) (interface_info : InterfaceInfo) (result : string)
    (w : World) :
  l3_synchronizer w <> None ->
  l3_db_result env (trace w)
    (l3_db.add_router_interface router_id interface_info) = inr result ->
  let created :=
    record_event (L3Db (l3_db.add_router_interface router_id interface_info))
      w in
  let hook :=
    l3_apic.add_router_interface_postcommit env router_id interface_info
      created in
  let rollback := l3_db.remove_router_interface router_id interface_info in
  (hook.2 = Returned tt ->
     l3_apic.add_router_interface env router_id interface_info w
       = (hook.1, Returned result)) /\
  (forall e, hook.2 = Raised e ->
     (l3_apic.add_router_interface env router_id interface_info w).1
       = record_event (L3Db rollback) hook.1 /\
     (forall removed,
        l3_db_result env (trace hook.1) rollback = inr removed ->
        (l3_apic.add_router_interface env router_id interface_info w).2
          = Raised e)).
Proof.
  intros Hs Hadd created hook rollback.
  assert (Hrun : l3_apic.add_router_interface env router_id interface_info w
                 = l3_apic.f_add_router_interface env router_id interface_info
                     w).
  { unfold l3_apic.add_router_interface, l3_apic.sync_init.
    destruct (l3_synchronizer w); [reflexivity | now contradiction Hs]. }
  rewrite Hrun. clear Hrun.
  assert (Heq :
            l3_apic.f_add_router_interface env router_id interface_info w
            = match hook with
              | (w1, Returned _) => (w1, Returned result)
              | (w1, Raised e) =>
                  (record_event (L3Db rollback) w1,
                   match l3_db_result env (trace w1) rollback with
                   | inl e1 => Raised e1
                   | inr _ => Raised e
                   end)
              | (w1, OutOfFuel) => (w1, OutOfFuel)
              end).
  { unfold l3_apic.f_add_router_interface, bind, super, try_except,
      excutils.save_and_reraise_exception, bind, super, raise, ret.
    rewrite Hadd. fold created. fold hook. fold rollback.
    destruct hook as [w1 [[] | e |]]; try reflexivity.
    now destruct (l3_db_result env (trace w1) rollback). }
  rewrite Heq. clear Heq.
  destruct hook as [w1 [[] | e0 |]]; simpl; split;
    try discriminate; try reflexivity.
  intros e [= ->]. split; [reflexivity |].
  intros removed Hrb. now rewrite Hrb.
Qed.

(** The sample deployment with a fabric that refuses router interfaces:
    the interface is created, the fabric call fails, the interface is
    removed again, and the fabric's error reaches the caller. *)
Lemma add_router_interface_rollback_witness :
  let info := {| info_subnet_id := None; info_port_id := Some "p5" |} in
  l3_apic.add_router_interface sample.env_no_interfaces "r1" info sample.synced
  = (add_events
       [ L3Db (l3_db.add_router_interface "r1" info);
         Apic (apic_manager.add_router_interface "tn-t1" "rtr-r1" "net-n1")
           false;
         L3Db (l3_db.remove_router_interface "r1" info) ]
       sample.synced,
     Raised (ApicError 500)).
Proof.
  intros info.
  destruct (add_router_interface_rollback sample.env_no_interfaces "r1" info
              "ok" sample.synced ltac:(discriminate) eq_refl) as [_ Hfail].
  destruct (Hfail (ApicError 500) eq_refl) as [Hstate Hresult].
  specialize (Hresult "ok" eq_refl).
  destruct (l3_apic.add_router_interface sample.env_no_interfaces "r1" info
              sample.synced) as [w' o].
  simpl in Hstate, Hresult. subst w' o. reflexivity.
Defined.

(* ===================================================================== *)
(** * The rest of the three files                                        *)
(* ===================================================================== *)

(** ** [str.split] as the gateway wiring uses it *)

Lemma split_nonempty (sep : ascii) (s : string) : split sep s <> [].
Proof.
  destruct s as [| c rest]; simpl; [discriminate |].
  destruct (Ascii.eqb c sep); [discriminate |].
  destruct (split sep rest); discriminate.
Qed.

Lemma length_split (sep : ascii) (s : string) :
  length (split sep s) = S (occurrences sep s).
Proof.
  induction s as [| c rest IH]; simpl; [reflexivity |].
  destruct (Ascii.eqb c sep); simpl; [now rewrite IH |].
  destruct (split sep rest) eqn:E; [now apply split_nonempty in E |].
  exact IH.
Qed.

Lemma join_split (sep : ascii) (s : string) : join sep (split sep s) = s.
Proof.
  induction s as [| c rest IH]; simpl; [reflexivity |].
  destruct (Ascii.eqb_spec c sep) as [-> | Hne].
  - destruct (split sep rest) eqn:E; [now apply split_nonempty in E |].
    simpl. now rewrite <- IH.
  - destruct (split sep rest) as [| part parts] eqn:E;
      [now apply split_nonempty in E |].
    destruct parts; simpl in *; now rewrite <- IH.
Qed.

Lemma split_parts_clean (sep : ascii) (s : string) :
  Forall (fun part => occurrences sep part = O) (split sep s).
Proof.
  induction s as [| c rest IH]; simpl.
  - constructor; [reflexivity | constructor].
  - destruct (Ascii.eqb c sep) eqn:Ec.
    + constructor; [reflexivity | exact IH].
    + destruct (split sep rest) as [| part parts] eqn:E;
        [now apply split_nonempty in E |].
      inversion IH as [| ? ? Hpart Hparts]; subst.
      constructor; [| exact Hparts]. simpl. now rewrite Ec.
Qed.

Lemma split_clean (sep : ascii) (s : string) :
  occurrences sep s = O -> split sep s = [s].
Proof.
  induction s as [| c rest IH]; simpl; [reflexivity |].
  destruct (Ascii.eqb c sep); [discriminate |].
  intros H. now rewrite (IH H).
Qed.

Lemma split_at_first (sep : ascii) (a b : string) :
  occurrences sep a = O ->
  split sep (String.append a (String sep b)) = a :: split sep b.
Proof.
  induction a as [| c rest IH]; simpl.
  - intros _. now rewrite Ascii.eqb_refl.
  - destruct (Ascii.eqb c sep); [discriminate |].
    intros H. now rewrite (IH H).
Qed.

(** The unpacking [module, sport = router_info['port'].split('/')]
    succeeds exactly on the ports that are a module and a sub-port around
    one slash: the two parts then hold no slash and rebuild the configured
    port; on every other port the number of parts is not two. *)
Theorem port_unpacking (port module sport : string) :
  (split "/" port = [module; sport] <->
   port = String.append module (String "/" sport) /\
   occurrences "/" module = O /\ occurrences "/" sport = O) /\
  (occurrences "/" port <> 1%nat -> length (split "/" port) <> 2%nat).
Proof.
  split; [split |].
  - intros Hs.
    pose proof (join_split "/" port) as Hj.
    pose proof (split_parts_clean "/" port) as Hc.
    rewrite Hs in Hj, Hc. simpl in Hj.
    inversion Hc as [| ? ? Hm Hrest]; subst.
    inversion Hrest as [| ? ? Hsp _]; subst.
    repeat split; assumption || reflexivity.
  - intros (-> & Hm & Hsp).
    rewrite (split_at_first "/" module sport Hm).
    now rewrite (split_clean "/" sport Hsp).
  - rewrite length_split. lia.
Qed.

(** The configured port "1/2" of the sample deployment. *)
Lemma port_unpacking_witness :
  split "/" "1/2" = ["1"; "2"] /\ length (split "/" "12") <> 2%nat.
Proof.
  split.
  - apply (proj1 (port_unpacking "1/2" "1" "2")). repeat split.
  - apply (proj2 (port_unpacking "12" "" "")). simpl. lia.
Defined.

(* ===================================================================== *)
(** ** Port events outside the two wirings                               *)
(* ===================================================================== *)

Lemma port_op_body (env : Env) (fuel : nat) (context : PortContext)
    (w : World) (op : Env -> nat -> PortContext -> M unit) :
  op = mechanism_apic.create_port_postcommit \/
  op = mechanism_apic.update_port_postcommit ->
  op env fuel context w
  = mechanism_apic.inner env fuel
      (mechanism_apic._perform_port_operations env context) w.
Proof. intros [-> | ->]; reflexivity. Qed.

(** A gateway port whose external-network entry has a port that is not a
    module and a sub-port around one slash: the handler raises ValueError
    before it opens a transaction scope or calls the fabric. *)
Theorem gateway_malformed_port (env : Env) (fuel : nat)
    (context : PortContext) (router_info : ExtNetInfo) (w : World)
    (op : Env -> nat -> PortContext -> M unit) :
  op = mechanism_apic.create_port_postcommit \/
  op = mechanism_apic.update_port_postcommit ->
  device_owner (pc_current context) = DEVICE_OWNER_ROUTER_GW ->
  device_id (pc_current context) <> "" ->
  ext_net_dict env !! net_name (nc_current (pc_network context))
    = Some router_info ->
  occurrences "/" (ext_port router_info) <> 1%nat ->
  synchronizer w <> None ->
  op env (S fuel) context w = (w, Raised ValueError).
Proof.
  intros Hop Hgw Hid Hinfo Hport Hsync.
  rewrite (port_op_body env (S fuel) context w op Hop).
  rewrite (inner_synced env fuel _ w Hsync).
  rewrite (gw_dispatch env context Hgw).
  unfold mechanism_apic._perform_gw_port_operations.
  rewrite (truthy_str_nonempty _ Hid), Hinfo.
  pose proof (length_split "/" (ext_port router_info)) as Hlen.
  destruct (split "/" (ext_port router_info)) as [| a [| b [| c rest]]];
    simpl in Hlen; try reflexivity.
  exfalso. apply Hport. lia.
Qed.

Lemma gateway_malformed_port_witness :
  mechanism_apic.create_port_postcommit malformed_env 1 sample.gw_context
    sample.synced
  = (sample.synced, Raised ValueError).
Proof.
  apply (gateway_malformed_port malformed_env 0 sample.gw_context
           malformed_info sample.synced mechanism_apic.create_port_postcommit);
    [now left | reflexivity | discriminate | vm_compute; reflexivity
    | vm_compute; lia | discriminate].
Defined.

(** A gateway port without a router ([device_id] empty) is skipped, with or
    without an external-network entry for its network; the handler adds
    nothing to what the gate of the instance does. *)
Theorem gateway_without_router_skip (env : Env) (fuel : nat)
    (context : PortContext) (w : World)
    (op : Env -> nat -> PortContext -> M unit) :
  op = mechanism_apic.create_port_postcommit \/
  op = mechanism_apic.update_port_postcommit ->
  device_owner (pc_current context) = DEVICE_OWNER_ROUTER_GW ->
  device_id (pc_current context) = "" ->
  op env fuel context w = mechanism_apic.inner env fuel (ret tt) w /\
  (synchronizer w <> None -> op env (S fuel) context w = (w, Returned tt)).
Proof.
  intros Hop Hgw Hid.
  assert (Hbody : mechanism_apic._perform_port_operations env context
                  = ret tt).
  { rewrite (gw_dispatch env context Hgw).
    unfold mechanism_apic._perform_gw_port_operations. now rewrite Hid. }
  split.
  - rewrite (port_op_body env fuel context w op Hop). now rewrite Hbody.
  - intros Hsync. rewrite (port_op_body env (S fuel) context w op Hop).
    rewrite Hbody. now rewrite (inner_synced env fuel _ w Hsync).
Qed.

Lemma gateway_without_router_skip_witness :
  let port :=
    {| port_id := "p6"; port_network_id := "n2"; port_tenant_id := "t1";
       device_owner := "network:router_gateway"; device_id := "";
       host_id := None |} in
  mechanism_apic.update_port_postcommit (sample.env (Some 0)) 1
    {| pc_current := port; pc_network := {| nc_current := sample.ext1 |};
       bound_segment := None |} sample.synced
  = (sample.synced, Returned tt).
Proof.
  intros port.
  apply (gateway_without_router_skip (sample.env (Some 0)) 0 _ sample.synced
           mechanism_apic.update_port_postcommit);
    [now right | reflexivity | reflexivity | discriminate].
Defined.

(** A port whose [device_owner] neither starts with 'compute' nor is the
    gateway or the DHCP owner (a router interface, a floating IP, no owner
    at all) is ignored by create- and update-port-postcommit, whatever its
    binding. *)
Theorem other_port_owners_ignored (env : Env) (fuel : nat)
    (context : PortContext) (w : World)
    (op : Env -> nat -> PortContext -> M unit) :
  op = mechanism_apic.create_port_postcommit \/
  op = mechanism_apic.update_port_postcommit ->
  String.prefix "compute" (device_owner (pc_current context)) = false ->
  device_owner (pc_current context) <> DEVICE_OWNER_ROUTER_GW ->
  device_owner (pc_current context) <> DEVICE_OWNER_DHCP ->
  op env fuel context w = mechanism_apic.inner env fuel (ret tt) w /\
  (synchronizer w <> None -> op env (S fuel) context w = (w, Returned tt)).
Proof.
  intros Hop Hc Hg Hd.
  assert (Hbody : mechanism_apic._perform_port_operations env context
                  = ret tt).
  { unfold mechanism_apic._perform_port_operations. rewrite Hc.
    destruct (String.eqb_spec (device_owner (pc_current context))
                DEVICE_OWNER_ROUTER_GW); [now contradiction Hg |].
    destruct (String.eqb_spec (device_owner (pc_current context))
                DEVICE_OWNER_DHCP); [now contradiction Hd | reflexivity]. }
  split.
  - rewrite (port_op_body env fuel context w op Hop). now rewrite Hbody.
  - intros Hsync. rewrite (port_op_body env (S fuel) context w op Hop).
    rewrite Hbody. now rewrite (inner_synced env fuel _ w Hsync).
Qed.

Lemma other_port_owners_ignored_witness :
  mechanism_apic.create_port_postcommit (sample.env (Some 0)) 1
    {| pc_current := sample.intf_port;
       pc_network := {| nc_current := sample.net1 |};
       bound_segment := Some sample.vlan100 |} sample.synced
  = (sample.synced, Returned tt).
Proof.
  apply (other_port_owners_ignored (sample.env (Some 0)) 0 _ sample.synced
           mechanism_apic.create_port_postcommit);
    [now left | reflexivity | discriminate | discriminate | discriminate].
Defined.

(** Delete-port-postcommit, on an instance that is through its gate: for a
    gateway port it makes one fabric call, the deletion of the external
    EPG's contract for the mapped router and network, outside any
    transaction scope, and ends as that call ends; for every other port,
    compute and DHCP ports included, it does nothing, so a path attachment
    is never taken back. *)
Theorem delete_port_contract_only (env : Env) (fuel : nat)
    (context : PortContext) (w : World) :
  synchronizer w <> None ->
  (device_owner (pc_current context) = DEVICE_OWNER_ROUTER_GW ->
     let c :=
       apic_manager.delete_external_epg_contract
         (name_mapper_router env (device_id (pc_current context)))
         (name_mapper_network env
            (net_id (nc_current (pc_network context)))) in
     mechanism_apic.delete_port_postcommit env (S fuel) context w
       = (add_events [Apic c false] w,
          match apic_raises env (trace w) c with
          | Some e => Raised e
          | None => Returned tt
          end)) /\
  (device_owner (pc_current context) <> DEVICE_OWNER_ROUTER_GW ->
     mechanism_apic.delete_port_postcommit env (S fuel) context w
       = (w, Returned tt)).
Proof.
  intros Hsync. unfold mechanism_apic.delete_port_postcommit.
  rewrite (inner_synced env fuel _ w Hsync).
  unfold mechanism_apic.f_delete_port_postcommit,
    mechanism_apic._delete_contract_if_gateway.
  split.
  - intros Hgw. rewrite Hgw; simpl. unfold apic.
    now destruct (apic_raises env (trace w) _).
  - intros Hgw.
    destruct (String.eqb_spec (device_owner (pc_current context))
                DEVICE_OWNER_ROUTER_GW); [now contradiction Hgw | reflexivity].
Qed.

Lemma delete_port_contract_only_witness :
  mechanism_apic.delete_port_postcommit (sample.env (Some 0)) 1
    sample.gw_context sample.synced
  = (add_events
       [Apic (apic_manager.delete_external_epg_contract "rtr-r1" "net-n2")
          false] sample.synced,
     Returned tt) /\
  mechanism_apic.delete_port_postcommit (sample.env (Some 0)) 1
    (sample.vm_context (Some sample.vlan100)) sample.synced
  = (sample.synced, Returned tt).
Proof.
  split.
  - apply (delete_port_contract_only (sample.env (Some 0)) 0 sample.gw_context
             sample.synced); [discriminate | reflexivity].
  - apply (delete_port_contract_only (sample.env (Some 0)) 0
             (sample.vm_context (Some sample.vlan100)) sample.synced);
      discriminate.
Defined.

(* ===================================================================== *)
(** ** Subnet events                                                     *)
(* ===================================================================== *)

(** Create- and delete-subnet-postcommit, on an instance that is through
    its gate.  The owning network is fetched first: when it is gone the
    handler raises NetworkNotFound and the fabric is not called; when it is
    external the handler does nothing; otherwise it makes one fabric call,
    outside any transaction scope, that ensures the gateway
    [gateway_ip/prefixlen] created (deleted) on the mapped tenant and
    network, and ends as that call ends. *)
Theorem subnet_events (env : Env) (fuel : nat) (context : SubnetContext)
    (w : World) :
  synchronizer w <> None ->
  let subnet := sc_current context in
  let tenant := name_mapper_tenant env (subnet_tenant_id subnet) in
  let network := name_mapper_network env (subnet_network_id subnet) in
  let gateway :=
    String.append (gateway_ip subnet)
      (String.append "/" (prefixlen env (cidr subnet))) in
  let answer c :=
    match apic_raises env (trace w) c with
    | Some e => Raised e
    | None => Returned tt
    end in
  (lookup_network (core_plugin env) (subnet_network_id subnet) = None ->
     mechanism_apic.create_subnet_postcommit env (S fuel) context w
       = (w, Raised (NetworkNotFound (subnet_network_id subnet))) /\
     mechanism_apic.delete_subnet_postcommit env (S fuel) context w
       = (w, Raised (NetworkNotFound (subnet_network_id subnet)))) /\
  (forall n,
     lookup_network (core_plugin env) (subnet_network_id subnet) = Some n ->
     router_external n = true ->
     mechanism_apic.create_subnet_postcommit env (S fuel) context w
       = (w, Returned tt) /\
     mechanism_apic.delete_subnet_postcommit env (S fuel) context w
       = (w, Returned tt)) /\
  (forall n,
     lookup_network (core_plugin env) (subnet_network_id subnet) = Some n ->
     router_external n = false ->
     let created :=
       apic_manager.ensure_subnet_created_on_apic tenant network gateway in
     let deleted :=
       apic_manager.ensure_subnet_deleted_on_apic tenant network gateway in
     mechanism_apic.create_subnet_postcommit env (S fuel) context w
       = (add_events [Apic created false] w, answer created) /\
     mechanism_apic.delete_subnet_postcommit env (S fuel) context w
       = (add_events [Apic deleted false] w, answer deleted)).
Proof.
  intros Hsync subnet tenant network gateway answer.
  unfold mechanism_apic.create_subnet_postcommit,
    mechanism_apic.delete_subnet_postcommit.
  rewrite !(inner_synced env fuel _ w Hsync).
  unfold mechanism_apic.f_create_subnet_postcommit,
    mechanism_apic.f_delete_subnet_postcommit, bind, get_network.
  fold subnet. split; [| split].
  - intros Hnone. rewrite Hnone. split; reflexivity.
  - intros n Hn Hext. rewrite Hn; simpl. rewrite Hext. split; reflexivity.
  - intros n Hn Hext. rewrite Hn; simpl. rewrite Hext; simpl.
    unfold apic, answer. fold tenant network gateway.
    split.
    + now destruct (apic_raises env (trace w) _).
    + now destruct (apic_raises env (trace w) _).
Qed.

Lemma subnet_events_witness :
  mechanism_apic.create_subnet_postcommit (sample.env (Some 0)) 1
    {| sc_current := sample.subnet1 |} sample.synced
  = (add_events
       [Apic (apic_manager.ensure_subnet_created_on_apic
                "tn-t1" "net-n1" "10.0.0.1/24") false] sample.synced,
     Returned tt).
Proof.
  apply (proj2 (proj2 (subnet_events (sample.env (Some 0)) 0
                         {| sc_current := sample.subnet1 |} sample.synced
                         ltac:(discriminate))) sample.net1);
    reflexivity.
Defined.

(* ===================================================================== *)
(** ** A transaction scope does not undo                                 *)
(* ===================================================================== *)

(** Create-network-postcommit for a network that is not external, on an
    instance that is through its gate.  When the bridge-domain call raises,
    the EPG call is not made, the scope is left and the error reaches the
    caller.  When the bridge-domain call returns and the EPG call raises,
    the scope is left, the error reaches the caller, and nothing is issued
    to take the bridge domain back. *)
Theorem create_network_partial_failure (env : Env) (fuel : nat)
    (context : NetworkContext) (w : World) (e : exn) :
  synchronizer w <> None ->
  router_external (nc_current context) = false ->
  let tenant := name_mapper_tenant env (net_tenant_id (nc_current context)) in
  let network := name_mapper_network env (net_id (nc_current context)) in
  let bd := apic_manager.ensure_bd_created_on_apic tenant network in
  let epg := apic_manager.ensure_epg_created_for_network tenant network in
  (apic_raises env (trace w ++ [TxEnter]) bd = Some e ->
     mechanism_apic.create_network_postcommit env (S fuel) context w
       = (add_events [TxEnter; Apic bd true; TxExit] w, Raised e)) /\
  (apic_raises env (trace w ++ [TxEnter]) bd = None ->
   apic_raises env (trace w ++ [TxEnter; Apic bd true]) epg = Some e ->
     mechanism_apic.create_network_postcommit env (S fuel) context w
       = (add_events [TxEnter; Apic bd true; Apic epg true; TxExit] w,
          Raised e)).
Proof.
  intros Hsync Hint tenant network bd epg.
  unfold mechanism_apic.create_network_postcommit.
  rewrite (inner_synced env fuel _ w Hsync).
  unfold mechanism_apic.f_create_network_postcommit. rewrite Hint; simpl.
  fold tenant network. fold bd epg.
  unfold transaction, bind, apic; simpl.
  split.
  - intros Hbd. rewrite Hbd.
    unfold record_event, add_events; simpl. now rewrite <- !app_assoc.
  - intros Hbd Hepg. rewrite Hbd; simpl.
    rewrite <- app_assoc; simpl. rewrite Hepg.
    unfold record_event, add_events; simpl. now rewrite <- !app_assoc.
Qed.

Lemma create_network_partial_failure_witness :
  mechanism_apic.create_network_postcommit refusing_env 1
    {| nc_current := sample.net1 |} sample.synced
  = (add_events
       [TxEnter;
        Apic (apic_manager.ensure_bd_created_on_apic "tn-t1" "net-n1") true;
        TxExit] sample.synced,
     Raised (ApicError 503)).
Proof.
  apply (create_network_partial_failure refusing_env 0
           {| nc_current := sample.net1 |} sample.synced (ApicError 503));
    [discriminate | reflexivity | reflexivity].
Defined.

(* ===================================================================== *)
(** ** The L3 plugin: hooks and the router API                           *)
(* ===================================================================== *)

Lemma l3_synced (env : Env) {A} (f : M A) (w : World) :
  l3_synchronizer w <> None -> l3_apic.sync_init env f w = f w.
Proof.
  intros Hs. unfold l3_apic.sync_init.
  destruct (l3_synchronizer w); [reflexivity | now contradiction Hs].
Qed.

(** The fabric names a hook passes on. *)
Lemma map_names_ids (env : Env) (tenant_id router_id net_id : string) :
  l3_apic._map_names env tenant_id router_id net_id None
  = (l3_apic.and_then tenant_id (name_mapper_tenant env),
     l3_apic.and_then router_id (name_mapper_router env),
     l3_apic.and_then net_id (name_mapper_network env), None).
Proof. reflexivity. Qed.

Lemma add_hook_run (env : Env) (router_id : string) (info : InterfaceInfo)
    (w : World) :
  l3_apic.add_router_interface_postcommit env router_id info w
  = match interface_ids (core_plugin env) info with
    | inl e => (w, Raised e)
    | inr (net, tenant) =>
        let c :=
          apic_manager.add_router_interface
            (l3_apic.and_then tenant (name_mapper_tenant env))
            (l3_apic.and_then router_id (name_mapper_router env))
            (l3_apic.and_then net (name_mapper_network env)) in
        (add_events [Apic c false] w,
         match apic_raises env (trace w) c with
         | Some e => Raised e
         | None => Returned tt
         end)
    end.
Proof.
  unfold l3_apic.add_router_interface_postcommit, interface_ids, bind,
    get_subnet, get_port, apic.
  destruct (info_subnet_id info) as [sid |].
  - destruct (lookup_subnet (core_plugin env) sid); simpl; [| reflexivity].
    now destruct (apic_raises env (trace w) _).
  - destruct (info_port_id info) as [pid |]; [| reflexivity].
    destruct (lookup_port (core_plugin env) pid); simpl; [| reflexivity].
    now destruct (apic_raises env (trace w) _).
Qed.

Lemma remove_hook_run (env : Env) (router_id : string) (info : InterfaceInfo)
    (w : World) :
  l3_apic.remove_router_interface_precommit env router_id info w
  = match interface_ids (core_plugin env) info with
    | inl e => (w, Raised e)
    | inr (net, tenant) =>
        let c :=
          apic_manager.remove_router_interface
            (l3_apic.and_then tenant (name_mapper_tenant env))
            (l3_apic.and_then router_id (name_mapper_router env))
            (l3_apic.and_then net (name_mapper_network env)) in
        (add_events [Apic c false] w,
         match apic_raises env (trace w) c with
         | Some e => Raised e
         | None => Returned tt
         end)
    end.
Proof.
  unfold l3_apic.remove_router_interface_precommit, interface_ids, bind,
    get_subnet, get_port, apic.
  destruct (info_subnet_id info) as [sid |].
  - destruct (lookup_subnet (core_plugin env) sid); simpl; [| reflexivity].
    now destruct (apic_raises env (trace w) _).
  - destruct (info_port_id info) as [pid |]; [| reflexivity].
    destruct (lookup_port (core_plugin env) pid); simpl; [| reflexivity].
    now destruct (apic_raises env (trace w) _).
Qed.

(** The two hooks of the L3 plugin find the network and the tenant of an
    interface the same way.  A 'subnet_id' wins over a 'port_id' given
    with it; a subnet or port that is gone raises its not-found error and
    an [interface_info] with neither key raises KeyError, in each case
    before the fabric is called; otherwise the hook makes one fabric call,
    add (remove) router interface, with the tenant, the router and the
    network mapped, an empty id being passed on unmapped, and ends as that
    call ends. *)
Theorem router_interface_hooks (env : Env) (router_id : string)
    (info : InterfaceInfo) (w : World) :
  let names net tenant :=
    (l3_apic.and_then tenant (name_mapper_tenant env),
     l3_apic.and_then router_id (name_mapper_router env),
     l3_apic.and_then net (name_mapper_network env)) in
  let answer c :=
    match apic_raises env (trace w) c with
    | Some e => Raised e
    | None => Returned tt
    end in
  (forall sid,
     info_subnet_id info = Some sid ->
     interface_ids (core_plugin env) info
     = interface_ids (core_plugin env)
         {| info_subnet_id := Some sid; info_port_id := None |}) /\
  (forall e,
     interface_ids (core_plugin env) info = inl e ->
     l3_apic.add_router_interface_postcommit env router_id info w
       = (w, Raised e) /\
     l3_apic.remove_router_interface_precommit env router_id info w
       = (w, Raised e)) /\
  (forall net tenant,
     interface_ids (core_plugin env) info = inr (net, tenant) ->
     let '(atenant, arouter, anet) := names net tenant in
     let added := apic_manager.add_router_interface atenant arouter anet in
     let removed :=
       apic_manager.remove_router_interface atenant arouter anet in
     l3_apic.add_router_interface_postcommit env router_id info w
       = (add_events [Apic added false] w, answer added) /\
     l3_apic.remove_router_interface_precommit env router_id info w
       = (add_events [Apic removed false] w, answer removed)) /\
  l3_apic.and_then "" (name_mapper_router env) = "".
Proof.
  intros names answer. split; [| split; [| split]].
  - intros sid Hs. unfold interface_ids. now rewrite Hs.
  - intros e He. rewrite add_hook_run, remove_hook_run, He. now split.
  - intros net tenant Hids. simpl.
    rewrite add_hook_run, remove_hook_run, Hids. now split.
  - reflexivity.
Qed.

Lemma router_interface_hooks_witness :
  l3_apic.add_router_interface_postcommit (sample.env (Some 0)) "r1"
    {| info_subnet_id := Some "s1"; info_port_id := Some "nowhere" |} fresh
  = (add_events
       [Apic (apic_manager.add_router_interface "tn-t1" "rtr-r1" "net-n1")
          false] fresh,
     Returned tt) /\
  l3_apic.remove_router_interface_precommit (sample.env (Some 0)) "r1"
    {| info_subnet_id := None; info_port_id := None |} fresh
  = (fresh, Raised (KeyError "port_id")).
Proof.
  pose proof (router_interface_hooks (sample.env (Some 0)) "r1"
                {| info_subnet_id := Some "s1"; info_port_id := Some "nowhere" |}
                fresh) as (_ & _ & Hok & _).
  pose proof (router_interface_hooks (sample.env (Some 0)) "r1"
                {| info_subnet_id := None; info_port_id := None |}
                fresh) as (_ & Hko & _).
  split.
  - apply (Hok "n1" "t1" eq_refl).
  - apply (Hko (KeyError "port_id") eq_refl).
Defined.

(** [remove_router_interface] on a plugin that is through its gate: the
    fabric side goes first.  When the interface cannot be resolved or the
    fabric call raises, the database is not touched and the error reaches
    the caller; only after the fabric call has returned is the interface
    removed from the database, and the call ends as that removal ends. *)
Theorem remove_router_interface_order (env : Env) (router_id : string)
    (info : InterfaceInfo) (w : World) :
  l3_synchronizer w <> None ->
  let rm := l3_db.remove_router_interface router_id info in
  match interface_ids (core_plugin env) info with
  | inl e =>
      l3_apic.remove_router_interface env router_id info w = (w, Raised e)
  | inr (net, tenant) =>
      let c :=
        apic_manager.remove_router_interface
          (l3_apic.and_then tenant (name_mapper_tenant env))
          (l3_apic.and_then router_id (name_mapper_router env))
          (l3_apic.and_then net (name_mapper_network env)) in
      match apic_raises env (trace w) c with
      | Some e =>
          l3_apic.remove_router_interface env router_id info w
          = (add_events [Apic c false] w, Raised e)
      | None =>
          l3_apic.remove_router_interface env router_id info w
          = (add_events [Apic c false; L3Db rm] w,
             match l3_db_result env (trace w ++ [Apic c false]) rm with
             | inl e => Raised e
             | inr v => Returned v
             end)
      end
  end.
Proof.
  intros Hs rm. unfold l3_apic.remove_router_interface.
  rewrite (l3_synced env _ w Hs).
  unfold l3_apic.f_remove_router_interface, bind.
  rewrite remove_hook_run.
  destruct (interface_ids (core_plugin env) info) as [e | [net tenant]];
    [reflexivity |].
  simpl. destruct (apic_raises env (trace w) _); [reflexivity |].
  unfold super; simpl. fold rm.
  destruct (l3_db_result env _ rm);
    unfold record_event, add_events; simpl; now rewrite <- !app_assoc.
Qed.

Lemma remove_router_interface_order_witness :
  let info := {| info_subnet_id := None; info_port_id := Some "p5" |} in
  l3_apic.remove_router_interface refusing_env "r1" info sample.synced
  = (add_events
       [Apic (apic_manager.remove_router_interface "tn-t1" "rtr-r1" "net-n1")
          false] sample.synced,
     Raised (ApicError 503)).
Proof.
  intros info.
  apply (remove_router_interface_order refusing_env "r1" info sample.synced).
  discriminate.
Defined.

(** [delete_router] on a plugin that is through its gate: the database
    goes first.  When the database refuses, the fabric is not called; once
    the router is deleted there, the fabric is asked to delete the mapped
    router, and when that call raises the error reaches the caller with the
    database deletion left in place. *)
Theorem delete_router_order (env : Env) (router_id : string) (w : World) :
  l3_synchronizer w <> None ->
  let db := l3_db.delete_router router_id in
  let c :=
    apic_manager.delete_router
      (l3_apic.and_then router_id (name_mapper_router env)) in
  match l3_db_result env (trace w) db with
  | inl e =>
      l3_apic.delete_router env router_id w
      = (add_events [L3Db db] w, Raised e)
  | inr result =>
      l3_apic.delete_router env router_id w
      = (add_events [L3Db db; Apic c false] w,
         match apic_raises env (trace w ++ [L3Db db]) c with
         | Some e => Raised e
         | None => Returned result
         end)
  end.
Proof.
  intros Hs db c. unfold l3_apic.delete_router.
  rewrite (l3_synced env _ w Hs).
  unfold l3_apic.f_delete_router, l3_apic.delete_router_postcommit, bind,
    super, apic; simpl. fold db. fold c.
  destruct (l3_db_result env (trace w) db) as [e | result]; [reflexivity |].
  simpl. destruct (apic_raises env (trace w ++ [L3Db db]) c);
    unfold record_event, add_events; simpl; now rewrite <- !app_assoc.
Qed.

Lemma delete_router_order_witness :
  l3_apic.delete_router refusing_env "r1" sample.synced
  = (add_events
       [L3Db (l3_db.delete_router "r1");
        Apic (apic_manager.delete_router "rtr-r1") false] sample.synced,
     Raised (ApicError 503)).
Proof.
  apply (delete_router_order refusing_env "r1" sample.synced). discriminate.
Defined.

(** [add_router_interface] on a plugin that is through its gate, where the
    fabric is never reached.  When the database refuses to create the
    interface, nothing else happens: no hook, no rollback.  When the
    interface is created but cannot be resolved to a network and tenant,
    the rollback follows at once, without a fabric call in between, and,
    that removal done, the lookup's error is what the caller gets. *)
Theorem add_router_interface_before_fabric (env : Env) (router_id : string)
    (info : InterfaceInfo) (w : World) :
  l3_synchronizer w <> None ->
  let add := l3_db.add_router_interface router_id info in
  let rm := l3_db.remove_router_interface router_id info in
  (forall e,
     l3_db_result env (trace w) add = inl e ->
     l3_apic.add_router_interface env router_id info w
       = (add_events [L3Db add] w, Raised e)) /\
  (forall result e removed,
     l3_db_result env (trace w) add = inr result ->
     interface_ids (core_plugin env) info = inl e ->
     l3_db_result env (trace w ++ [L3Db add]) rm = inr removed ->
     l3_apic.add_router_interface env router_id info w
       = (add_events [L3Db add; L3Db rm] w, Raised e)).
Proof.
  intros Hs add rm. unfold l3_apic.add_router_interface.
  rewrite (l3_synced env _ w Hs).
  split.
  - intros e He.
    unfold l3_apic.f_add_router_interface, bind, super. fold add.
    now rewrite He.
  - intros result e removed Hadd Hids Hrm.
    unfold l3_apic.f_add_router_interface, bind at 1, super at 1. fold add.
    rewrite Hadd.
    unfold bind, try_except. rewrite add_hook_run, Hids.
    unfold excutils.save_and_reraise_exception, bind, super; simpl.
    fold rm. rewrite Hrm; simpl.
    unfold raise, record_event, add_events; simpl. now rewrite <- !app_assoc.
Qed.

Lemma add_router_interface_before_fabric_witness :
  let info := {| info_subnet_id := None; info_port_id := Some "nowhere" |} in
  l3_apic.add_router_interface db_down_env "r1" info sample.synced
  = (add_events [L3Db (l3_db.add_router_interface "r1" info)] sample.synced,
     Raised (ApicError 1)) /\
  l3_apic.add_router_interface (sample.env (Some 0)) "r1" info sample.synced
  = (add_events
       [L3Db (l3_db.add_router_interface "r1" info);
        L3Db (l3_db.remove_router_interface "r1" info)] sample.synced,
     Raised (PortNotFound "nowhere")).
Proof.
  intros info. split.
  - apply (add_router_interface_before_fabric db_down_env "r1" info
             sample.synced ltac:(discriminate)).
    reflexivity.
  - apply (proj2 (add_router_interface_before_fabric (sample.env (Some 0))
                    "r1" info sample.synced ltac:(discriminate))
             "ok" (PortNotFound "nowhere") "ok");
      reflexivity.
Defined.

(* ===================================================================== *)
(** ** The router resync on the plugin itself                            *)
(* ===================================================================== *)

Lemma apic_calls_app (a b : list Event) :
  apic_calls (a ++ b) = apic_calls a ++ apic_calls b.
Proof. unfold apic_calls. apply omap_app. Qed.

Lemma l3_db_calls_app (a b : list Event) :
  l3_db_calls (a ++ b) = l3_db_calls a ++ l3_db_calls b.
Proof. unfold l3_db_calls. apply omap_app. Qed.

(** With ids that are keys, looking a listed port up by its id finds it. *)
Lemma find_by_key (ports : list Port) (p : Port) :
  List.NoDup (map port_id ports) -> In p ports ->
  List.find (fun q => String.eqb (port_id q) (port_id p)) ports = Some p.
Proof.
  induction ports as [| q rest IH]; intros Hnd Hin; [destruct Hin |].
  simpl in *. inversion Hnd as [| ? ? Hq Hrest]; subst.
  destruct Hin as [-> | Hin].
  - now rewrite String.eqb_refl.
  - destruct (String.eqb_spec (port_id q) (port_id p)) as [E | _].
    + exfalso. apply Hq. rewrite E. now apply in_map.
    + now apply IH.
Qed.

(** One guarded replay of an interface on the plugin: the one fabric call,
    and the warning when it raised. *)
Lemma interface_replay_run (env : Env) (p : Port) (w : World) :
  lookup_port (core_plugin env) (port_id p) = Some p ->
  let c :=
    apic_manager.add_router_interface
      (l3_apic.and_then (port_tenant_id p) (name_mapper_tenant env))
      (l3_apic.and_then (device_id p) (name_mapper_router env))
      (l3_apic.and_then (port_network_id p) (name_mapper_network env)) in
  exists evs,
    try_except
      (l3_apic.add_router_interface_postcommit env (device_id p)
         {| info_subnet_id := None; info_port_id := Some (port_id p) |})
      (fun _ => emit (Warn (interface_postcommit_failed
                              (device_id p) (port_id p)))) w
    = (add_events evs w, Returned tt) /\
    apic_calls evs = [c] /\ l3_db_calls evs = [].
Proof.
  intros Hp c. unfold try_except. rewrite add_hook_run.
  unfold interface_ids; simpl. rewrite Hp. simpl. fold c.
  destruct (apic_raises env (trace w) c).
  - exists [Apic c false;
            Warn (interface_postcommit_failed (device_id p) (port_id p))].
    unfold emit, record_event, add_events; simpl.
    rewrite <- !app_assoc. repeat split.
  - exists [Apic c false]. repeat split.
Qed.

(** A router resync run on the L3 plugin itself, over a listing whose port
    ids are keys, whatever the fabric answers: it returns; the fabric calls
    it makes are exactly one add-router-interface per port whose
    [device_owner] is the router-interface constant, in listing order, with
    the port's tenant, its [device_id] as router and its network, each
    mapped; a refused call stops nothing after it; and the database is
    never called. *)
Theorem router_resync_fabric_calls (env : Env) (w : World) :
  List.NoDup (map port_id (get_ports (core_plugin env))) ->
  exists evs,
    apic_sync._sync_router (core_plugin env) (l3_apic.inst env) w
      = (add_events evs w, Returned tt) /\
    apic_calls evs
      = map (fun p =>
               apic_manager.add_router_interface
                 (l3_apic.and_then (port_tenant_id p) (name_mapper_tenant env))
                 (l3_apic.and_then (device_id p) (name_mapper_router env))
                 (l3_apic.and_then (port_network_id p)
                    (name_mapper_network env)))
            (List.filter (fun p => String.eqb (device_owner p)
                                     DEVICE_OWNER_ROUTER_INTF)
               (get_ports (core_plugin env))) /\
    l3_db_calls evs = [].
Proof.
  intros Hnd. unfold apic_sync._sync_router.
  assert (Hkey : forall p, In p (get_ports (core_plugin env)) ->
                   lookup_port (core_plugin env) (port_id p) = Some p).
  { intros p Hp. unfold lookup_port. now apply find_by_key. }
  clear Hnd. revert Hkey. generalize (get_ports (core_plugin env)) as ps.
  intros ps; revert w.
  induction ps as [| p rest IH]; intros w Hkey; simpl.
  - exists []. rewrite add_events_nil. repeat split.
  - unfold bind at 1.
    destruct (String.eqb (device_owner p) DEVICE_OWNER_ROUTER_INTF); simpl.
    + destruct (interface_replay_run env p w (Hkey p (or_introl eq_refl)))
        as (evs1 & Hrun & Hcalls & Hdb).
      simpl in Hrun. rewrite Hrun.
      destruct (IH (add_events evs1 w)
                  (fun q Hq => Hkey q (or_intror Hq)))
        as (evs2 & Hrest & Hcalls2 & Hdb2).
      exists (evs1 ++ evs2). split.
      { rewrite <- add_events_app. exact Hrest. }
      rewrite apic_calls_app, l3_db_calls_app, Hcalls, Hcalls2, Hdb, Hdb2.
      split; reflexivity.
    + unfold ret at 1.
      apply (IH w (fun q Hq => Hkey q (or_intror Hq))).
Qed.

Lemma router_resync_fabric_calls_witness :
  exists evs,
    apic_sync._sync_router sample.plugin (l3_apic.inst refusing_env)
      fresh
      = (add_events evs fresh, Returned tt) /\
    apic_calls evs
      = [apic_manager.add_router_interface "tn-t1" "rtr-r1" "net-n1"] /\
    l3_db_calls evs = [].
Proof.
  apply (router_resync_fabric_calls refusing_env fresh).
  repeat constructor; simpl; intuition discriminate.
Defined.

(* ===================================================================== *)
(** ** What a resync that fails does to the gate                         *)
(* ===================================================================== *)

Lemma keeps_sync_base_pass (env : Env) :
  keeps_handles
    (apic_sync._sync_base (core_plugin env) (mechanism_apic.plain env)).
Proof.
  destruct (keeps_plain env) as (Hn & Hs & Hp).
  unfold apic_sync._sync_base. handles.
Qed.

(** The mechanism driver stores its synchronizer before it runs the
    resync.  So with an interval of 0 or unset, when the first call on a
    fresh instance runs a resync pass that raises, the error reaches the
    caller and the triggering event is not handled; yet the instance holds
    its synchronizer from then on, and the next call handles its event
    without any resync: the pass that failed is not run again. *)
Theorem failed_resync_not_retried (env : Env) (fuel : nat)
    (m m' : mechanism_apic.method) (w : World) (e : exn) :
  synchronizer w = None ->
  truthy_int (apic_sync_interval env) = false ->
  let s := {| interval := apic_sync_interval env |} in
  let pass :=
    apic_sync._sync_base (core_plugin env) (mechanism_apic.plain env)
      (set_synchronizer (Some s) w) in
  pass.2 = Raised e ->
  let first := mechanism_apic.call env (S (S fuel)) m w in
  first = (pass.1, Raised e) /\
  synchronizer first.1 = Some s /\
  mechanism_apic.call env (S fuel) m' first.1
    = mechanism_apic.undecorated env m' first.1.
Proof.
  intros Hnone Hfalsy s pass Hpass first.
  assert (Hfirst : first = (pass.1, Raised e)).
  { unfold first. rewrite call_inner.
    unfold mechanism_apic.inner, mechanism_apic.sync_init. rewrite Hnone.
    unfold mechanism_apic.get_base_synchronizer. fold s. unfold bind.
    rewrite (sync_base_agree (core_plugin env)
               (mechanism_apic.inst env (S fuel)) (mechanism_apic.plain env)
               s (set_synchronizer (Some s) w))
      by (apply sync_base_behind_gate; discriminate).
    unfold apic_sync.sync_base, apic_sync.sync; simpl. rewrite Hfalsy.
    unfold bind. fold pass.
    destruct pass as [w1 o]; simpl in *. now rewrite Hpass. }
  assert (Hheld : synchronizer first.1 = Some s).
  { rewrite Hfirst; simpl. unfold pass.
    now rewrite (proj1 (keeps_sync_base_pass env
                          (set_synchronizer (Some s) w))). }
  split; [exact Hfirst | split; [exact Hheld |]].
  rewrite call_inner. apply inner_synced. now rewrite Hheld.
Qed.

(** The deployment whose only port has lost its network: the first event
    dies with the resync, the second is handled on its own. *)
Lemma failed_resync_not_retried_witness :
  let event :=
    mechanism_apic.m_create_network_postcommit {| nc_current := sample.net1 |} in
  let first := mechanism_apic.call dangling_env 2 event fresh in
  first
    = (set_synchronizer (Some {| interval := Some 0 |}) fresh,
       Raised (NetworkNotFound "n1")) /\
  synchronizer first.1 = Some {| interval := Some 0 |} /\
  mechanism_apic.call dangling_env 1 event first.1
    = mechanism_apic.undecorated dangling_env event first.1.
Proof.
  intros event first.
  apply (failed_resync_not_retried dangling_env 0 event event fresh
           (NetworkNotFound "n1"));
    reflexivity.
Defined.

(* ===================================================================== *)
(** ** The gate of the L3 plugin cannot fail a call                      *)
(* ===================================================================== *)

Lemma completes_ret {A} (a : A) : completes (ret a).
Proof. intros w; discriminate. Qed.

Lemma completes_raise {A} (e : exn) : completes (@raise A e).
Proof. intros w; discriminate. Qed.

Lemma completes_emit (ev : Event) : completes (emit ev).
Proof. intros w; discriminate. Qed.

Lemma completes_apic (env : Env) c trs : completes (apic env c trs).
Proof.
  intros w; unfold apic.
  destruct (apic_raises env (trace w) c); discriminate.
Qed.

Lemma completes_get_subnet cp id : completes (get_subnet cp id).
Proof.
  intros w; unfold get_subnet. destruct (lookup_subnet cp id); discriminate.
Qed.

Lemma completes_get_port cp id : completes (get_port cp id).
Proof.
  intros w; unfold get_port. destruct (lookup_port cp id); discriminate.
Qed.

Lemma completes_bind {A B} (m : M A) (k : A -> M B) :
  completes m -> (forall a, completes (k a)) -> completes (bind m k).
Proof.
  intros Hm Hk w. unfold bind. specialize (Hm w).
  destruct (m w) as [w' [a | e |]]; simpl in *;
    [apply Hk | discriminate | now contradiction Hm].
Qed.

Lemma completes_try_except {A} (body : M A) (handler : exn -> M A) :
  completes body -> (forall e, completes (handler e)) ->
  completes (try_except body handler).
Proof.
  intros Hm Hk w. unfold try_except. specialize (Hm w).
  destruct (body w) as [w' [a | e |]]; simpl in *;
    [discriminate | apply Hk | exact Hm].
Qed.

Lemma completes_for_each {A} (xs : list A) (body : A -> M unit) :
  (forall x, completes (body x)) -> completes (for_each xs body).
Proof.
  intros Hb. induction xs as [| x rest IH]; simpl.
  - apply completes_ret.
  - apply completes_bind; [apply Hb | intros _; exact IH].
Qed.

Lemma completes_add_hook (env : Env) router_id info :
  completes (l3_apic.add_router_interface_postcommit env router_id info).
Proof.
  intros w. rewrite add_hook_run.
  destruct (interface_ids (core_plugin env) info) as [e | [net tenant]];
    simpl; [discriminate |].
  destruct (apic_raises env (trace w) _); discriminate.
Qed.

(** The router pass on the plugin ends, and ends without an exception. *)
Lemma sync_router_pass_returns (env : Env) (w : World) :
  (apic_sync._sync_router (core_plugin env) (l3_apic.inst env) w).2
  = Returned tt.
Proof.
  assert (Hc : completes (apic_sync._sync_router (core_plugin env)
                            (l3_apic.inst env))).
  { unfold apic_sync._sync_router. apply completes_for_each. intros p.
    destruct (String.eqb (device_owner p) DEVICE_OWNER_ROUTER_INTF).
    - apply completes_try_except;
        [apply completes_add_hook | intros _; apply completes_emit].
    - apply completes_ret. }
  assert (Hr : never_raises (apic_sync._sync_router (core_plugin env)
                               (l3_apic.inst env))).
  { unfold apic_sync._sync_router. apply never_raises_for_each. intros p _.
    destruct (String.eqb (device_owner p) DEVICE_OWNER_ROUTER_INTF);
      [apply never_raises_guarded | apply never_raises_ret]. }
  specialize (Hc w). specialize (Hr w).
  destruct (apic_sync._sync_router (core_plugin env) (l3_apic.inst env) w)
    as [w' [[] | e |]]; simpl in *;
    [reflexivity | now contradiction (Hr e) | now contradiction Hc].
Qed.

(** Whatever the configured interval, the fabric and the listing, the
    resync that the first call on a fresh L3 plugin triggers returns: every
    interface replay is guarded and nothing in the pass is left unguarded.
    So the first call is the function under the decorator, run from the
    state the resync left, and an error of the call is the function's
    own. *)
Theorem router_gate_never_fails (env : Env) (r : l3_apic.method) (w : World) :
  l3_synchronizer w = None ->
  let s := {| interval := apic_sync_interval env |} in
  let resync :=
    apic_sync.sync_router (core_plugin env) (l3_apic.inst env) s
      (set_l3_synchronizer (Some s) w) in
  resync.2 = Returned tt /\
  l3_apic.call env r w = l3_apic.undecorated env r resync.1.
Proof.
  intros Hnone s resync.
  assert (Hret : resync.2 = Returned tt).
  { unfold resync, apic_sync.sync_router, apic_sync.sync.
    set (w1 := set_l3_synchronizer (Some s) w).
    pose proof (sync_router_pass_returns env w1) as Hpass.
    destruct (truthy_int (interval s)).
    - destruct (gt_zero (interval s)); [| reflexivity].
      destruct (interval s); [| reflexivity].
      unfold bind, loopingcall.start, loopingcall.fire, bind; simpl.
      destruct (apic_sync._sync_router (core_plugin env) (l3_apic.inst env)
                  w1) as [w' o]; simpl in *.
      now rewrite Hpass.
    - unfold bind.
      destruct (apic_sync._sync_router (core_plugin env) (l3_apic.inst env)
                  w1) as [w' o]; simpl in *.
      now rewrite Hpass. }
  split; [exact Hret |].
  rewrite l3_call_inner. unfold l3_apic.sync_init. rewrite Hnone.
  unfold mechanism_apic.get_router_synchronizer. fold s. unfold bind.
  fold resync. destruct resync as [w1 o]; simpl in *. now rewrite Hret.
Qed.

Lemma router_gate_never_fails_witness :
  let resync :=
    apic_sync.sync_router sample.plugin (l3_apic.inst refusing_env)
      {| interval := Some 0 |}
      (set_l3_synchronizer (Some {| interval := Some 0 |}) fresh) in
  resync.2 = Returned tt /\
  l3_apic.call refusing_env (l3_apic.m_get_router "r1") fresh
    = l3_apic.undecorated refusing_env (l3_apic.m_get_router "r1") resync.1.
Proof.
  apply (router_gate_never_fails refusing_env (l3_apic.m_get_router "r1")
           fresh).
  reflexivity.
Defined.

(* ===================================================================== *)
(** ** Replays do not depend on what happened before                     *)
(* ===================================================================== *)

Lemma history_free_ret {A} (a : A) : history_free (ret a).
Proof.
  exists [], (Returned a). intros w. unfold ret. now rewrite add_events_nil.
Qed.

Lemma history_free_raise {A} (e : exn) : history_free (@raise A e).
Proof.
  exists [], (Raised e). intros w. unfold raise. now rewrite add_events_nil.
Qed.

Lemma history_free_emit (ev : Event) : history_free (emit ev).
Proof. exists [ev], (Returned tt). intros w. reflexivity. Qed.

Lemma history_free_apic (env : Env) c trs :
  healthy env -> history_free (apic env c trs).
Proof.
  intros Hh. exists [Apic c trs], (Returned tt). intros w.
  unfold apic. now rewrite Hh.
Qed.

Lemma history_free_get_network cp id : history_free (get_network cp id).
Proof.
  unfold get_network. destruct (lookup_network cp id);
    [apply history_free_ret | apply history_free_raise].
Qed.

Lemma history_free_bind {A B} (m : M A) (k : A -> M B) :
  history_free m -> (forall a, history_free (k a)) ->
  history_free (bind m k).
Proof.
  intros (evs & o & Hm) Hk. destruct o as [a | e |].
  - destruct (Hk a) as (evs' & o' & Hka).
    exists (evs ++ evs'), o'. intros w. unfold bind.
    now rewrite Hm, Hka, add_events_app.
  - exists evs, (Raised e). intros w. unfold bind. now rewrite Hm.
  - exists evs, OutOfFuel. intros w. unfold bind. now rewrite Hm.
Qed.

Lemma history_free_try_except {A} (body : M A) (handler : exn -> M A) :
  history_free body -> (forall e, history_free (handler e)) ->
  history_free (try_except body handler).
Proof.
  intros (evs & o & Hm) Hk. destruct o as [a | e |].
  - exists evs, (Returned a). intros w. unfold try_except. now rewrite Hm.
  - destruct (Hk e) as (evs' & o' & Hke).
    exists (evs ++ evs'), o'. intros w. unfold try_except.
    now rewrite Hm, Hke, add_events_app.
  - exists evs, OutOfFuel. intros w. unfold try_except. now rewrite Hm.
Qed.

Lemma history_free_transaction {A} (m : M A) :
  history_free m -> history_free (transaction m).
Proof.
  intros (evs & o & Hm). exists (TxEnter :: evs ++ [TxExit]), o.
  intros w. unfold transaction. rewrite Hm.
  rewrite !record_event_add, !add_events_app. reflexivity.
Qed.

Lemma history_free_for_each {A} (xs : list A) (body : A -> M unit) :
  (forall x, history_free (body x)) -> history_free (for_each xs body).
Proof.
  intros Hb. induction xs as [| x rest IH]; simpl.
  - apply history_free_ret.
  - apply history_free_bind; [apply Hb | intros _; exact IH].
Qed.

(** Takes a run apart along its control structure, over a fabric that
    answers every call. *)
Ltac replay Hh :=
  repeat first
    [ match goal with
      | |- history_free _ => fail 1
      | |- forall _, _ => intro
      end
    | apply history_free_ret
    | apply history_free_raise
    | apply history_free_emit
    | apply (history_free_apic _ _ _ Hh)
    | apply history_free_get_network
    | apply history_free_bind
    | apply history_free_try_except
    | apply history_free_transaction
    | apply history_free_for_each
    | match goal with
      | |- history_free (if ?b then _ else _) => destruct b
      | |- history_free (match ?x with _ => _ end) => destruct x
      end ].

Lemma undecorated_history_free (env : Env) (m : mechanism_apic.method) :
  healthy env -> history_free (mechanism_apic.undecorated env m).
Proof.
  intros Hh.
  destruct m; simpl;
    unfold mechanism_apic.f_create_port_postcommit,
      mechanism_apic.f_update_port_postcommit,
      mechanism_apic.f_delete_port_postcommit,
      mechanism_apic.f_create_network_postcommit,
      mechanism_apic.f_update_network_postcommit,
      mechanism_apic.f_delete_network_postcommit,
      mechanism_apic.f_create_subnet_postcommit,
      mechanism_apic.f_update_subnet_postcommit,
      mechanism_apic.f_delete_subnet_postcommit,
      mechanism_apic._perform_port_operations,
      mechanism_apic._delete_contract_if_gateway,
      mechanism_apic._perform_path_port_operations,
      mechanism_apic._perform_gw_port_operations;
    replay Hh.
Qed.

(** Over a fabric that answers every call, what the mechanism driver does
    for an event depends on the event and the configuration alone: from
    every state the function under a decorated method adds the same events
    and ends the same way.  The same holds for a whole base resync pass on
    the driver, so a pass that runs again issues the calls of the pass
    before it, in the same order. *)
Theorem replays_are_history_free (env : Env) :
  healthy env ->
  (forall m, history_free (mechanism_apic.undecorated env m)) /\
  history_free
    (apic_sync._sync_base (core_plugin env) (mechanism_apic.plain env)) /\
  (forall w,
     let pass :=
       apic_sync._sync_base (core_plugin env) (mechanism_apic.plain env) in
     (pass w).2 = Returned tt ->
     exists evs,
       pass w = (add_events evs w, Returned tt) /\
       (pass ;; pass) w = (add_events (evs ++ evs) w, Returned tt)).
Proof.
  intros Hh.
  assert (Hpass : history_free
                    (apic_sync._sync_base (core_plugin env)
                       (mechanism_apic.plain env))).
  { unfold apic_sync._sync_base. replay Hh;
      first
        [ apply (undecorated_history_free env
                   (mechanism_apic.m_create_network_postcommit _) Hh)
        | apply (undecorated_history_free env
                   (mechanism_apic.m_create_subnet_postcommit _) Hh)
        | apply (undecorated_history_free env
                   (mechanism_apic.m_create_port_postcommit _) Hh) ]. }
  split; [intros m; now apply undecorated_history_free |].
  split; [exact Hpass |].
  intros w pass Hret. destruct Hpass as (evs & o & Hrun).
  fold pass in Hrun. exists evs.
  rewrite Hrun in Hret; simpl in Hret. subst o.
  split; [apply Hrun |].
  unfold bind. now rewrite !Hrun, add_events_app.
Qed.

Lemma replays_are_history_free_witness :
  history_free
    (apic_sync._sync_base sample.plugin
       (mechanism_apic.plain (sample.env (Some 0)))).
Proof.
  apply (replays_are_history_free (sample.env (Some 0))).
  intros tr c. reflexivity.
Defined.

(* ===================================================================== *)
(** ** Transaction scopes are always left                                *)
(* ===================================================================== *)

Lemma well_scoped_app (inside : bool) (a b : list Event) :
  well_scoped inside a = true ->
  well_scoped inside (a ++ b) = well_scoped false b.
Proof.
  revert inside; induction a as [| e rest IH]; intros inside H; simpl in *.
  - now destruct inside.
  - destruct e; simpl in *;
      try (apply andb_prop in H; destruct H as [H1 H2]; rewrite H1; simpl);
      auto.
Qed.

Lemma well_scoped_body (evs : list Event) :
  forallb scope_free evs = true ->
  well_scoped false (TxEnter :: evs ++ [TxExit]) = true.
Proof.
  intros H; simpl.
  induction evs as [| e rest IH]; simpl in *; [reflexivity |].
  apply andb_prop in H; destruct H as [He Hrest].
  destruct e; simpl in *; try discriminate; auto.
  rewrite implb_true_r. simpl. auto.
Qed.

Lemma stays_ret {A} (a : A) : stays_in_scope (ret a).
Proof. intros w. exists []. now rewrite add_events_nil. Qed.

Lemma stays_apic (env : Env) c trs : stays_in_scope (apic env c trs).
Proof.
  intros w. exists [Apic c trs]. unfold apic.
  now destruct (apic_raises env (trace w) c).
Qed.

Lemma stays_bind {A B} (m : M A) (k : A -> M B) :
  stays_in_scope m -> (forall a, stays_in_scope (k a)) ->
  stays_in_scope (bind m k).
Proof.
  intros Hm Hk w. unfold bind. destruct (Hm w) as (evs & Hw & Hevs).
  destruct (m w) as [w' [a | e |]]; simpl in *; subst w';
    try (exists evs; now split).
  destruct (Hk a (add_events evs w)) as (evs' & Hw' & Hevs').
  exists (evs ++ evs'). rewrite Hw', add_events_app, forallb_app.
  now rewrite Hevs, Hevs'.
Qed.

Lemma scoped_ret {A} (a : A) : scoped (ret a).
Proof. intros w. exists []. now rewrite add_events_nil. Qed.

Lemma scoped_raise {A} (e : exn) : scoped (@raise A e).
Proof. intros w. exists []. now rewrite add_events_nil. Qed.

Lemma scoped_emit_log (r : log_record) :
  scoped (emit (Debug r)) /\ scoped (emit (Warn r)).
Proof. split; intros w; [exists [Debug r] | exists [Warn r]]; now split. Qed.

Lemma scoped_apic (env : Env) c : scoped (apic env c false).
Proof.
  intros w. exists [Apic c false]. unfold apic.
  now destruct (apic_raises env (trace w) c).
Qed.

Lemma scoped_super (env : Env) c : scoped (super env c).
Proof.
  intros w. exists [L3Db c]. unfold super.
  now destruct (l3_db_result env (trace w) c).
Qed.

Lemma scoped_get_network cp id : scoped (get_network cp id).
Proof.
  unfold get_network. destruct (lookup_network cp id);
    [apply scoped_ret | apply scoped_raise].
Qed.

Lemma scoped_get_subnet cp id : scoped (get_subnet cp id).
Proof.
  unfold get_subnet. destruct (lookup_subnet cp id);
    [apply scoped_ret | apply scoped_raise].
Qed.

Lemma scoped_get_port cp id : scoped (get_port cp id).
Proof.
  unfold get_port. destruct (lookup_port cp id);
    [apply scoped_ret | apply scoped_raise].
Qed.

Lemma scoped_bind {A B} (m : M A) (k : A -> M B) :
  scoped m -> (forall a, scoped (k a)) -> scoped (bind m k).
Proof.
  intros Hm Hk w. unfold bind. destruct (Hm w) as (evs & Hw & Hevs).
  destruct (m w) as [w' [a | e |]]; simpl in *; subst w';
    try (exists evs; now split).
  destruct (Hk a (add_events evs w)) as (evs' & Hw' & Hevs').
  exists (evs ++ evs'). rewrite Hw', add_events_app.
  split; [reflexivity |]. now rewrite (well_scoped_app false evs evs' Hevs).
Qed.

Lemma scoped_try_except {A} (body : M A) (handler : exn -> M A) :
  scoped body -> (forall e, scoped (handler e)) ->
  scoped (try_except body handler).
Proof.
  intros Hm Hk w. unfold try_except. destruct (Hm w) as (evs & Hw & Hevs).
  destruct (body w) as [w' [a | e |]]; simpl in *; subst w';
    try (exists evs; now split).
  destruct (Hk e (add_events evs w)) as (evs' & Hw' & Hevs').
  exists (evs ++ evs'). rewrite Hw', add_events_app.
  split; [reflexivity |]. now rewrite (well_scoped_app false evs evs' Hevs).
Qed.

Lemma scoped_transaction {A} (m : M A) :
  stays_in_scope m -> scoped (transaction m).
Proof.
  intros Hm w. unfold transaction.
  destruct (Hm (record_event TxEnter w)) as (evs & Hw & Hevs).
  destruct (m (record_event TxEnter w)) as [w' r]; simpl in *; subst w'.
  exists (TxEnter :: evs ++ [TxExit]).
  rewrite !record_event_add, !add_events_app.
  split; [reflexivity | now apply well_scoped_body].
Qed.

Lemma scoped_for_each {A} (xs : list A) (body : A -> M unit) :
  (forall x, scoped (body x)) -> scoped (for_each xs body).
Proof.
  intros Hb. induction xs as [| x rest IH]; simpl.
  - apply scoped_ret.
  - apply scoped_bind; [apply Hb | intros _; exact IH].
Qed.

(** Takes a run apart along its control structure, outside a scope and,
    under [transaction], inside one. *)
Ltac scopes :=
  repeat first
    [ match goal with
      | |- scoped _ => fail 1
      | |- stays_in_scope _ => fail 1
      | |- forall _, _ => intro
      end
    | apply scoped_ret
    | apply scoped_raise
    | apply (proj1 (scoped_emit_log _))
    | apply (proj2 (scoped_emit_log _))
    | apply scoped_apic
    | apply scoped_super
    | apply scoped_get_network
    | apply scoped_get_subnet
    | apply scoped_get_port
    | apply scoped_bind
    | apply scoped_try_except
    | apply scoped_transaction
    | apply scoped_for_each
    | apply stays_ret
    | apply stays_apic
    | apply stays_bind
    | match goal with
      | |- scoped (if ?b then _ else _) => destruct b
      | |- scoped (match ?x with _ => _ end) => destruct x
      | |- scoped (let '(_, _) := ?x in _) => destruct x
      end ].

Lemma undecorated_scoped (env : Env) (m : mechanism_apic.method) :
  scoped (mechanism_apic.undecorated env m).
Proof.
  destruct m; simpl;
    unfold mechanism_apic.f_create_port_postcommit,
      mechanism_apic.f_update_port_postcommit,
      mechanism_apic.f_delete_port_postcommit,
      mechanism_apic.f_create_network_postcommit,
      mechanism_apic.f_update_network_postcommit,
      mechanism_apic.f_delete_network_postcommit,
      mechanism_apic.f_create_subnet_postcommit,
      mechanism_apic.f_update_subnet_postcommit,
      mechanism_apic.f_delete_subnet_postcommit,
      mechanism_apic._perform_port_operations,
      mechanism_apic._delete_contract_if_gateway,
      mechanism_apic._perform_path_port_operations,
      mechanism_apic._perform_gw_port_operations;
    scopes.
Qed.

(** Whatever the fabric and the database answer, and from every state:
    what a handler of the mechanism driver, a method of the L3 plugin or a
    whole base resync pass adds to the trace is well scoped.  Every
    transaction scope that is entered is left, also when a call inside it
    raises; scopes are never nested; and a fabric call is given
    [transaction=trs] only inside a scope. *)
Theorem transaction_scopes_closed (env : Env) :
  (forall m, scoped (mechanism_apic.undecorated env m)) /\
  (forall r, scoped (l3_apic.undecorated env r)) /\
  scoped (apic_sync._sync_base (core_plugin env) (mechanism_apic.plain env)).
Proof.
  split; [apply undecorated_scoped |].
  assert (Hadd : forall router_id info,
             scoped (l3_apic.add_router_interface_postcommit
                       env router_id info)).
  { intros. unfold l3_apic.add_router_interface_postcommit,
      l3_apic._map_names. scopes. }
  split.
  - intros r. destruct r; simpl;
      unfold l3_apic.f_create_router, l3_apic.f_update_router,
        l3_apic.f_get_router, l3_apic.f_get_routers,
        l3_apic.f_get_routers_count, l3_apic.f_delete_router,
        l3_apic.f_add_router_interface, l3_apic.f_remove_router_interface,
        l3_apic.delete_router_postcommit,
        l3_apic.remove_router_interface_precommit, l3_apic._map_names,
        excutils.save_and_reraise_exception;
      scopes; apply Hadd.
  - unfold apic_sync._sync_base. scopes;
      first
        [ apply (undecorated_scoped env
                   (mechanism_apic.m_create_network_postcommit _))
        | apply (undecorated_scoped env
                   (mechanism_apic.m_create_subnet_postcommit _))
        | apply (undecorated_scoped env
                   (mechanism_apic.m_create_port_postcommit _)) ].
Qed.

(** The gateway wiring of the sample deployment against a fabric that
    refuses every call: the scope is entered, the first call raises, the
    scope is left. *)
Example refused_wiring_leaves_scope :
  mechanism_apic.undecorated refusing_env
    (mechanism_apic.m_create_port_postcommit sample.gw_context) fresh
  = (add_events
       [TxEnter; Apic (apic_manager.get_router_contract "rtr-r1") false;
        TxExit] fresh,
     Raised (ApicError 503)).
Proof. vm_compute. reflexivity. Qed.
